(** * The tool-call round trip of [callFunction.ipynb]

    A shallow embedding of the notebook's first step: the request is
    composed, the model answers with a function call, [get_weather] is run
    locally and its result is sent back together with the whole history.

    The notebook leans on three library facilities whose behaviour decides
    what the cells do: [json.loads], [str] on the decoded values, and the
    two remote services.  The first two are modelled executably
    ([Json.decode], [py_str]); the services are an explicit [World], and
    so is the point at which the interpreter's recursion limit stops
    [json.loads]. *)

From Stdlib Require Import ZArith List String Ascii Bool Lia DecimalString.
From Stdlib Require Import SpecFloat.
From Stdlib Require DecimalFacts DecimalPos.
Import ListNotations.

Set Warnings "-register-all".

Local Open Scope string_scope.
Local Open Scope Z_scope.

(** ** Binary64 numbers, as CPython's [float] *)

Module Float64.

Definition prec : Z := 53.
Definition emax : Z := 1024.

(** [float("<digits>e<e>")]: the double nearest to [m * 10^e], ties to
    even; [neg] is the sign of the literal. *)
Definition of_decimal (neg : bool) (m e : Z) : spec_float :=
  match m with
  | Z0 => S754_zero neg
  | Zpos p =>
      if 0 <=? e
      then binary_normalize prec emax (cond_Zopp neg (Zpos p * 10 ^ e)) 0 neg
      else
        let '(q, e', l) :=
          SFdiv_core_binary prec emax (Zpos p) 0 (10 ^ (- e)) 0 in
        binary_round_aux prec emax neg q e' l
  | Zneg _ => S754_nan
  end.

Definition eqb (x y : spec_float) : bool :=
  match x, y with
  | S754_zero a, S754_zero b => Bool.eqb a b
  | S754_infinity a, S754_infinity b => Bool.eqb a b
  | S754_nan, S754_nan => true
  | S754_finite a m e, S754_finite b n f =>
      Bool.eqb a b && Pos.eqb m n && Z.eqb e f
  | _, _ => false
  end.

(** The positive rational [n / d] is below [10^p]. *)
Definition lt_pow10 (n d p : Z) : bool :=
  if 0 <=? p then n <? d * 10 ^ p else n * 10 ^ (- p) <? d.

(** The decimal point position of the positive rational [n / d] is the
    [p] with [10^(p-1) <= n / d < 10^p].  It is looked for upwards from
    1 when [1 <= n / d] and downwards from 0 otherwise; a double lies
    within 10^-324 .. 10^309, so 400 steps reach it. *)
Fixpoint decpt_up (steps : nat) (n d p : Z) : Z :=
  match steps with
  | O => p
  | S k => if lt_pow10 n d p then p else decpt_up k n d (p + 1)
  end.

Fixpoint decpt_down (steps : nat) (n d p : Z) : Z :=
  match steps with
  | O => p
  | S k => if lt_pow10 n d (p - 1) then decpt_down k n d (p - 1) else p
  end.

Definition decpt (n d : Z) : Z :=
  if n <? d then decpt_down 400 n d 0 else decpt_up 400 n d 1.

(** [floor (n / d * 10^s)]. *)
Definition scaled_floor (n d s : Z) : Z :=
  if 0 <=? s then (n * 10 ^ s) / d else n / (d * 10 ^ (- s)).

(** [compare (n / d) (c * 10^t)] *)
Definition cmp_decimal (n d c t : Z) : comparison :=
  if 0 <=? t then n ?= c * 10 ^ t * d else n * 10 ^ (- t) ?= c * d.

(** Twice [n / d] against [(a + b) * 10^t]: which of the two decimals
    [a * 10^t <= n / d <= b * 10^t] is nearer. *)
Definition nearer_low (n d a b t : Z) : comparison :=
  cmp_decimal (2 * n) d (a + b) t.

(** [k] significant digits: the two decimals [lo * 10^t <= n/d <
    (lo+1) * 10^t] around the value, kept when they read back as [x];
    of two that do, the nearer one (the even one on a tie). *)
Definition shortest_at (x : spec_float) (n d p k : Z) : option (Z * Z) :=
  let t := p - k in
  let lo := scaled_floor n d (k - p) in
  let hi := lo + 1 in
  match eqb (of_decimal false lo t) x, eqb (of_decimal false hi t) x with
  | true, true =>
      match nearer_low n d lo hi t with
      | Lt => Some (lo, t)
      | Gt => Some (hi, t)
      | Eq => Some (if Z.even lo then lo else hi, t)
      end
  | true, false => Some (lo, t)
  | false, true => Some (hi, t)
  | false, false => None
  end.

(** The shortest decimal that reads back as [x], tried from [k]
    significant digits up; seventeen always suffice for a double. *)
Fixpoint shortest (steps : nat) (x : spec_float) (n d p k : Z) : Z * Z :=
  match steps with
  | O => (scaled_floor n d (k - p), p - k)
  | S s =>
      match shortest_at x n d p k with
      | Some r => r
      | None => shortest s x n d p (k + 1)
      end
  end.

Definition string_of_Z (z : Z) : string :=
  NilZero.string_of_int (Z.to_int z).

Fixpoint drop_zeros (cs : list ascii) : list ascii :=
  match cs with
  | "0"%char :: r => drop_zeros r
  | _ => cs
  end.

Definition strip_trailing_zeros (s : string) : string :=
  string_of_list_ascii (rev (drop_zeros (rev (list_ascii_of_string s)))).

Fixpoint zeros (n : nat) : string :=
  match n with
  | O => EmptyString
  | S k => String "0" (zeros k)
  end.

Definition exponent_digits (e : Z) : string :=
  (if e <? 0 then "-" else "+") ++
  (if Z.abs e <? 10 then "0" else EmptyString) ++ string_of_Z (Z.abs e).

(** [format_float_short] for the ['r'] code: [ds] are the significant
    digits and the value is [0.ds * 10^decpt]. *)
Definition format_repr (ds : string) (decpt : Z) : string :=
  let n := Z.of_nat (String.length ds) in
  if (decpt <=? -4) || (16 <? decpt) then
    match ds with
    | String c EmptyString => String c EmptyString
    | String c rest => String c ("." ++ rest)
    | EmptyString => EmptyString
    end ++ "e" ++ exponent_digits (decpt - 1)
  else if decpt <=? 0 then "0." ++ zeros (Z.to_nat (- decpt)) ++ ds
  else if n <=? decpt then ds ++ zeros (Z.to_nat (decpt - n)) ++ ".0"
  else substring 0 (Z.to_nat decpt) ds ++ "." ++
       substring (Z.to_nat decpt) (Z.to_nat (n - decpt)) ds.

(** [repr(x)] and [str(x)] of a float (the "short" repr style). *)
Definition repr (x : spec_float) : string :=
  match x with
  | S754_nan => "nan"
  | S754_infinity s => if s then "-inf" else "inf"
  | S754_zero s => if s then "-0.0" else "0.0"
  | S754_finite s m e =>
      let n := if 0 <=? e then Zpos m * 2 ^ e else Zpos m in
      let d := if 0 <=? e then 1 else 2 ^ (- e) in
      let p := decpt n d in
      let '(c, t) := shortest 17 (S754_finite false m e) n d p 1 in
      let ds := string_of_Z c in
      (if s then "-" else EmptyString) ++
      format_repr (strip_trailing_zeros ds) (Z.of_nat (String.length ds) + t)
  end.


(** [x] lies within half a unit in the last place of [n / d]. *)
Definition rounds (x : spec_float) (n d : Z) : bool :=
  match x with
  | S754_finite s m e =>
      let v := cond_Zopp s (Zpos m) in
      if 0 <=? e then Z.abs (2 * (v * 2 ^ e * d - n)) <=? 2 ^ e * d
      else Z.abs (2 * (v * d - n * 2 ^ (- e))) <=? d
  | _ => false
  end.

End Float64.

(** ** Python values and exceptions *)

(** The values [json.loads] can produce.  A [dict] keeps its keys in
    insertion order, so it is an association list without repeated keys. *)
Inductive pyval : Type :=
| PyNone
| PyBool (b : bool)
| PyInt (z : Z)
| PyFloat (x : spec_float)
| PyStr (s : string)
| PyList (items : list pyval)
| PyDict (entries : list (string * pyval)).

Fixpoint dict_get (d : list (string * pyval)) (k : string) : option pyval :=
  match d with
  | [] => None
  | (k', v) :: r => if String.eqb k k' then Some v else dict_get r k
  end.

(** [d[k] = v]: an existing key keeps its place and takes the new value. *)
Fixpoint dict_set (d : list (string * pyval)) (k : string) (v : pyval)
  : list (string * pyval) :=
  match d with
  | [] => [(k, v)]
  | (k', v') :: r =>
      if String.eqb k k' then (k', v) :: r else (k', v') :: dict_set r k v
  end.

(** The exceptions the cells can end with.  [APIError] and
    [RequestException] stand for any failure of the two remote calls. *)
Inductive exn : Type :=
| IndexError
| AttributeError
| KeyError
| TypeError
| JSONDecodeError
| RecursionError
| APIError
| RequestException.

Inductive outcome (A : Type) : Type :=
| Returned (a : A)
| Raised (e : exn).
Arguments Returned {A} a.
Arguments Raised {A} e.

(** ** JSON texts and the values they stand for *)

Module Json.

Inductive scan (A : Type) : Type :=
| Scanned (a : A) (rest : list ascii)
| Malformed
| Exhausted.
Arguments Scanned {A} a rest.
Arguments Malformed {A}.
Arguments Exhausted {A}.

Definition is_ws (c : ascii) : bool :=
  Ascii.eqb c " " || Ascii.eqb c "009" || Ascii.eqb c "010" || Ascii.eqb c "013".

Fixpoint skip_ws (cs : list ascii) : list ascii :=
  match cs with
  | c :: r => if is_ws c then skip_ws r else cs
  | [] => []
  end.

Definition is_digit (c : ascii) : bool :=
  let n := N_of_ascii c in ((48 <=? n) && (n <=? 57))%N.

Fixpoint span_digits (cs : list ascii) : list ascii * list ascii :=
  match cs with
  | c :: r =>
      if is_digit c then let '(ds, r') := span_digits r in (c :: ds, r')
      else ([], cs)
  | [] => ([], [])
  end.

Definition digits_value (ds : list ascii) : Z :=
  fold_left (fun a c => 10 * a + (Z.of_N (N_of_ascii c) - 48)) ds 0.

Fixpoint strip_prefix (p cs : list ascii) : option (list ascii) :=
  match p, cs with
  | [], _ => Some cs
  | a :: p', c :: r => if Ascii.eqb a c then strip_prefix p' r else None
  | _ :: _, [] => None
  end.

Definition lit (s : string) (cs : list ascii) : option (list ascii) :=
  strip_prefix (list_ascii_of_string s) cs.

(** *** Numbers

    An optional minus sign; an integer part that is a lone 0 or starts
    with 1..9; optionally a dot with at least one digit; optionally an
    exponent mark, a sign and at least one digit.  A part that does not
    match is left in the input. *)

Definition scan_int_part (cs : list ascii) : option (list ascii * list ascii) :=
  match cs with
  | c :: r =>
      if Ascii.eqb c "0" then Some ([c], r)
      else if is_digit c then
        let '(ds, r') := span_digits r in Some (c :: ds, r')
      else None
  | [] => None
  end.

Definition scan_frac (cs : list ascii) : option (list ascii * list ascii) :=
  match cs with
  | c :: r =>
      if Ascii.eqb c "." then
        match span_digits r with
        | ([], _) => None
        | (ds, r') => Some (ds, r')
        end
      else None
  | [] => None
  end.

Definition scan_sign (cs : list ascii) : bool * list ascii :=
  match cs with
  | c :: r =>
      if Ascii.eqb c "-" then (true, r)
      else if Ascii.eqb c "+" then (false, r)
      else (false, cs)
  | [] => (false, [])
  end.

Definition scan_exp (cs : list ascii) : option (Z * list ascii) :=
  match cs with
  | c :: r =>
      if Ascii.eqb c "e" || Ascii.eqb c "E" then
        let '(neg, r1) := scan_sign r in
        match span_digits r1 with
        | ([], _) => None
        | (ds, r') => Some (cond_Zopp neg (digits_value ds), r')
        end
      else None
  | [] => None
  end.

(** An integer literal becomes an [int], one with a fraction or an
    exponent a [float]. *)
Definition match_number (cs : list ascii) : option (pyval * list ascii) :=
  let '(neg, r0) :=
    match cs with
    | c :: r => if Ascii.eqb c "-" then (true, r) else (false, cs)
    | [] => (false, [])
    end in
  match scan_int_part r0 with
  | None => None
  | Some (ip, r1) =>
      let frac := scan_frac r1 in
      let r2 := match frac with Some (_, r) => r | None => r1 end in
      let ex := scan_exp r2 in
      let r3 := match ex with Some (_, r) => r | None => r2 end in
      match frac, ex with
      | None, None => Some (PyInt (cond_Zopp neg (digits_value ip)), r3)
      | _, _ =>
          let fd := match frac with Some (ds, _) => ds | None => [] end in
          let e := match ex with Some (e, _) => e | None => 0 end in
          Some (PyFloat (Float64.of_decimal neg (digits_value (List.app ip fd))
                           (e - Z.of_nat (List.length fd))), r3)
      end
  end.

(** *** Strings (strict mode), after the opening quote

    A Python [str] is kept as its UTF-8 bytes, so a [\uXXXX] escape
    writes the UTF-8 form of its code point (a surrogate pair is joined
    first; a lone surrogate is written in the three-byte form). *)

Definition hex_value (c : ascii) : option N :=
  let n := N_of_ascii c in
  (if (48 <=? n) && (n <=? 57) then Some (n - 48)
   else if (97 <=? n) && (n <=? 102) then Some (n - 87)
   else if (65 <=? n) && (n <=? 70) then Some (n - 55)
   else None)%N.

Definition hex4 (a b c d : ascii) : option N :=
  match hex_value a, hex_value b, hex_value c, hex_value d with
  | Some x, Some y, Some z, Some w => Some (((x * 16 + y) * 16 + z) * 16 + w)%N
  | _, _, _, _ => None
  end.

Definition utf8 (cp : N) : list ascii :=
  (if cp <? 128 then [ascii_of_N cp]
   else if cp <? 2048 then
     [ascii_of_N (192 + cp / 64); ascii_of_N (128 + cp mod 64)]
   else if cp <? 65536 then
     [ascii_of_N (224 + cp / 4096); ascii_of_N (128 + (cp / 64) mod 64);
      ascii_of_N (128 + cp mod 64)]
   else
     [ascii_of_N (240 + cp / 262144); ascii_of_N (128 + (cp / 4096) mod 64);
      ascii_of_N (128 + (cp / 64) mod 64); ascii_of_N (128 + cp mod 64)])%N.

Definition is_high_surrogate (u : N) : bool := ((55296 <=? u) && (u <=? 56319))%N.
Definition is_low_surrogate (u : N) : bool := ((56320 <=? u) && (u <=? 57343))%N.
Definition join_surrogates (hi lo : N) : N :=
  (65536 + (hi - 55296) * 1024 + (lo - 56320))%N.

Definition unescape (c : ascii) : option ascii :=
  if Ascii.eqb c "034" then Some c
  else if Ascii.eqb c "\" then Some c
  else if Ascii.eqb c "/" then Some c
  else if Ascii.eqb c "b" then Some "008"%char
  else if Ascii.eqb c "f" then Some "012"%char
  else if Ascii.eqb c "n" then Some "010"%char
  else if Ascii.eqb c "r" then Some "013"%char
  else if Ascii.eqb c "t" then Some "009"%char
  else None.

(** [acc] holds the bytes decoded so far, last one first. *)
Fixpoint scanstring (cs acc : list ascii) : scan string :=
  match cs with
  | [] => Malformed
  | c :: r =>
      if Ascii.eqb c "034" then Scanned (string_of_list_ascii (rev acc)) r
      else if Ascii.eqb c "\" then
        match r with
        | [] => Malformed
        | e :: r1 =>
            if Ascii.eqb e "u" then
              match r1 with
              | h1 :: h2 :: h3 :: h4 :: r2 =>
                  match hex4 h1 h2 h3 h4 with
                  | None => Malformed
                  | Some u =>
                      match r2 with
                      | b :: e' :: g1 :: g2 :: g3 :: g4 :: r3 =>
                          if is_high_surrogate u && Ascii.eqb b "\" && Ascii.eqb e' "u"
                          then
                            match hex4 g1 g2 g3 g4 with
                            | None => Malformed
                            | Some v =>
                                if is_low_surrogate v
                                then scanstring r3 (rev (utf8 (join_surrogates u v)) ++ acc)%list
                                else scanstring r2 (rev (utf8 u) ++ acc)%list
                            end
                          else scanstring r2 (rev (utf8 u) ++ acc)%list
                      | _ => scanstring r2 (rev (utf8 u) ++ acc)%list
                      end
                  end
              | _ => Malformed
              end
            else
              match unescape e with
              | Some d => scanstring r1 (d :: acc)
              | None => Malformed
              end
        end
      else if (N_of_ascii c <? 32)%N then Malformed
      else scanstring r (c :: acc)
  end.

(** *** Literals and numbers *)

Definition scan_atom (cs : list ascii) : scan pyval :=
  match lit "null" cs with Some r => Scanned PyNone r | None =>
  match lit "true" cs with Some r => Scanned (PyBool true) r | None =>
  match lit "false" cs with Some r => Scanned (PyBool false) r | None =>
  match lit "NaN" cs with Some r => Scanned (PyFloat S754_nan) r | None =>
  match lit "Infinity" cs with Some r => Scanned (PyFloat (S754_infinity false)) r | None =>
  match lit "-Infinity" cs with Some r => Scanned (PyFloat (S754_infinity true)) r | None =>
  match match_number cs with
  | Some (v, r) => Scanned v r
  | None => Malformed
  end end end end end end end.

(** *** Values

    [scan_once] reads one value at the head of the input; [parse_items]
    and [parse_members] are the loops of an array and of an object
    after the opening bracket.  [fuel] bounds the calls still allowed. *)
Fixpoint scan_once (fuel : nat) (cs : list ascii) {struct fuel} : scan pyval :=
  match fuel with
  | O => Exhausted
  | S fuel' =>
      match cs with
      | [] => Malformed
      | c :: r =>
          if Ascii.eqb c "034" then
            match scanstring r [] with
            | Scanned s r' => Scanned (PyStr s) r'
            | Malformed => Malformed
            | Exhausted => Exhausted
            end
          else if Ascii.eqb c "{" then
            match skip_ws r with
            | [] => Malformed
            | c' :: r' =>
                if Ascii.eqb c' "}" then Scanned (PyDict []) r'
                else parse_members fuel' (c' :: r') []
            end
          else if Ascii.eqb c "[" then
            match skip_ws r with
            | [] => Malformed
            | c' :: r' =>
                if Ascii.eqb c' "]" then Scanned (PyList []) r'
                else parse_items fuel' (c' :: r') []
            end
          else scan_atom cs
      end
  end

with parse_items (fuel : nat) (cs : list ascii) (acc : list pyval)
     {struct fuel} : scan pyval :=
  match fuel with
  | O => Exhausted
  | S fuel' =>
      match scan_once fuel' cs with
      | Scanned v r =>
          match skip_ws r with
          | [] => Malformed
          | c :: r' =>
              if Ascii.eqb c "]" then Scanned (PyList (rev (v :: acc))) r'
              else if Ascii.eqb c "," then parse_items fuel' (skip_ws r') (v :: acc)
              else Malformed
          end
      | Malformed => Malformed
      | Exhausted => Exhausted
      end
  end

with parse_members (fuel : nat) (cs : list ascii) (acc : list (string * pyval))
     {struct fuel} : scan pyval :=
  match fuel with
  | O => Exhausted
  | S fuel' =>
      match cs with
      | [] => Malformed
      | q :: r =>
          if Ascii.eqb q "034" then
            match scanstring r [] with
            | Scanned key r1 =>
                match skip_ws r1 with
                | [] => Malformed
                | c :: r2 =>
                    if Ascii.eqb c ":" then
                      match scan_once fuel' (skip_ws r2) with
                      | Scanned v r3 =>
                          match skip_ws r3 with
                          | [] => Malformed
                          | c' :: r4 =>
                              if Ascii.eqb c' "}"
                              then Scanned (PyDict (dict_set acc key v)) r4
                              else if Ascii.eqb c' ","
                              then parse_members fuel' (skip_ws r4) (dict_set acc key v)
                              else Malformed
                          end
                      | Malformed => Malformed
                      | Exhausted => Exhausted
                      end
                    else Malformed
                end
            | Malformed => Malformed
            | Exhausted => Exhausted
            end
          else Malformed
      end
  end.

(** What [json.loads(s)] gives when the interpreter's stack is no
    obstacle: one value, white space around it, nothing else.  The fuel is
    twice the length of the text and two more, which the scanner never
    uses up ([decode_not_exhausted] below).  The recursion limit of the
    running interpreter is brought in by [json_loads] and
    [response_json]. *)
Definition decode (s : string) : outcome pyval :=
  let cs := list_ascii_of_string s in
  match scan_once (2 * List.length cs + 2) (skip_ws cs) with
  | Scanned v r =>
      match skip_ws r with
      | [] => Returned v
      | _ :: _ => Raised JSONDecodeError
      end
  | Malformed => Raised JSONDecodeError
  | Exhausted => Raised RecursionError
  end.

(** The opening brackets of a text.  The scanner enters an array or an
    object only at one of them, so it never nests deeper than this. *)
Definition is_opening (c : ascii) : bool := Ascii.eqb c "[" || Ascii.eqb c "{".

Definition opening_brackets (s : string) : nat :=
  List.length (filter is_opening (list_ascii_of_string s)).

(** A scanner that, when it succeeds, leaves less input than it got. *)
Definition consumes (f : list ascii -> scan pyval) : Prop :=
  forall cs v r, f cs = Scanned v r -> (List.length r < List.length cs)%nat.

End Json.

(** ** What the SDK hands back

    The item classes that show up in the notebook's cell outputs, with the
    fields printed there ([type] is fixed by the class). *)

Inductive content_part : Type :=
| ResponseOutputText (text : string)
| ResponseOutputRefusal (refusal : string).

Inductive output_item : Type :=
| ResponseFunctionToolCall (arguments call_id name id status : string)
| ResponseOutputMessage (id : string) (content : list content_part)
                        (role status : string)
| ResponseFunctionWebSearch (id status : string).

Record Response : Type := { output : list output_item }.

Definition item_type (it : output_item) : string :=
  match it with
  | ResponseFunctionToolCall _ _ _ _ _ => "function_call"
  | ResponseOutputMessage _ _ _ _ => "message"
  | ResponseFunctionWebSearch _ _ => "web_search_call"
  end.

Definition is_function_call (it : output_item) : bool :=
  match it with
  | ResponseFunctionToolCall _ _ _ _ _ => true
  | _ => false
  end.

(** [it.arguments], [it.call_id] and [it.name]: only a function call has
    them. *)
Definition get_arguments (it : output_item) : outcome string :=
  match it with
  | ResponseFunctionToolCall a _ _ _ _ => Returned a
  | _ => Raised AttributeError
  end.

Definition get_call_id (it : output_item) : outcome string :=
  match it with
  | ResponseFunctionToolCall _ c _ _ _ => Returned c
  | _ => Raised AttributeError
  end.

Definition get_name (it : output_item) : outcome string :=
  match it with
  | ResponseFunctionToolCall _ _ n _ _ => Returned n
  | _ => Raised AttributeError
  end.

(** [response.output_text]: the texts of the [output_text] parts of the
    message items, joined. *)
Definition part_texts (c : content_part) : list string :=
  match c with
  | ResponseOutputText t => [t]
  | ResponseOutputRefusal _ => []
  end.

Definition item_texts (it : output_item) : list string :=
  match it with
  | ResponseOutputMessage _ content _ _ => flat_map part_texts content
  | _ => []
  end.

Definition output_text (r : Response) : string :=
  String.concat EmptyString (flat_map item_texts (output r)).

(** The list passed as [input=] holds plain dicts and, after the first
    answer, the SDK's own item object. *)
Inductive input_item : Type :=
| Dict (d : list (string * pyval))
| Item (it : output_item).

(** ** The outside world

    The two remote services, and what is taken from the interpreter as
    given.  A service that fails answers [None].  [repr] of a [str]
    consults the Unicode tables.  [json.loads] raises [RecursionError]
    when the arrays and objects of a text nest deeper than the stack has
    room for; how much room there is depends on the recursion limit and on
    the frames in use at the call, so the world says for which texts the
    decoder gives up, once for [json.loads] in the dispatcher cell and
    once for [response.json()] inside [get_weather]. *)
Record World : Type := {
  repr_str : string -> string;
  responses_create : string -> list input_item -> pyval -> option Response;
  requests_get : string -> option string;
  loads_gives_up : string -> bool;
  json_gives_up : string -> bool
}.

(** What a run does that can be seen from outside, in order. *)
Inductive event : Type :=
| Create (model : string) (input : list input_item) (tools : pyval)
| Call (fn : string) (args : list pyval)
| Get (url : string)
| Stdout (text : string).

(** A computation logs events and then returns or raises. *)
Definition M (A : Type) : Type := (list event * outcome A)%type.

Definition ret {A} (a : A) : M A := ([], Returned a).

Definition bind {A B} (m : M A) (k : A -> M B) : M B :=
  match m with
  | (t, Returned a) => let '(t', r) := k a in ((t ++ t')%list, r)
  | (t, Raised e) => (t, Raised e)
  end.

Definition lift {A} (o : outcome A) : M A := ([], o).

Definition emit (e : event) : M unit := ([e], Returned tt).

Notation "x <- m ;; k" := (bind m (fun x => k))
  (at level 61, m at next level, right associativity).
Notation "' p <- m ;; k" := (bind m (fun x => match x with p => k end))
  (at level 61, p pattern, m at next level, right associativity).

Definition trace {A} (m : M A) : list event := fst m.
Definition ending {A} (m : M A) : outcome A := snd m.

(** [v[k]] for a text key. *)
Definition subscript (v : pyval) (k : string) : outcome pyval :=
  match v with
  | PyDict d =>
      match dict_get d k with
      | Some x => Returned x
      | None => Raised KeyError
      end
  | _ => Raised TypeError
  end.

Definition first_item (r : Response) : outcome output_item :=
  match output r with
  | it :: _ => Returned it
  | [] => Raised IndexError
  end.

(** ** The cells *)

Section Notebook.

Variable w : World.

(** [repr(v)] *)
Fixpoint py_repr (v : pyval) : string :=
  match v with
  | PyNone => "None"
  | PyBool b => if b then "True" else "False"
  | PyInt z => Float64.string_of_Z z
  | PyFloat x => Float64.repr x
  | PyStr s => repr_str w s
  | PyList l => "[" ++ String.concat ", " (map py_repr l) ++ "]"
  | PyDict d =>
      "{" ++ String.concat ", "
               (map (fun kv => match kv with
                               | (k, x) => repr_str w k ++ ": " ++ py_repr x
                               end) d) ++ "}"
  end.

(** [str(v)], also what an f-string field without a format gives. *)
Definition py_str (v : pyval) : string :=
  match v with
  | PyStr s => s
  | _ => py_repr v
  end.

Definition weather_url (latitude longitude : pyval) : string :=
  "https://api.open-meteo.com/v1/forecast?latitude=" ++ py_str latitude ++
  "&longitude=" ++ py_str longitude ++
  "&current=temperature_2m,wind_speed_10m&hourly=temperature_2m,relative_humidity_2m,wind_speed_10m".

(** The decoder under the interpreter's recursion limit: [RecursionError]
    where the world says the stack gives out, else what the text stands
    for.  A text with at most two opening brackets nests at most two
    deep, and the interpreter is taken to have room for that, as it is
    for the calls the cells make themselves. *)
Definition decode_within (gives_up : string -> bool) (s : string) : outcome pyval :=
  if (2 <? Json.opening_brackets s)%nat && gives_up s
  then Raised RecursionError
  else Json.decode s.

(** [json.loads(s)] in the dispatcher cell. *)
Definition json_loads (s : string) : outcome pyval :=
  decode_within (loads_gives_up w) s.

(** [response.json()] on a response whose text is [body]. *)
Definition response_json (body : string) : outcome pyval :=
  decode_within (json_gives_up w) body.

(** [requests.get(url)] followed by [response.json()] *)
Definition http_get_json (url : string) : M pyval :=
  _ <- emit (Get url) ;;
  match requests_get w url with
  | Some body => lift (response_json body)
  | None => lift (Raised RequestException)
  end.

Definition get_weather (latitude longitude : pyval) : M pyval :=
  _ <- emit (Call "get_weather" [latitude; longitude]) ;;
  data <- http_get_json (weather_url latitude longitude) ;;
  current <- lift (subscript data "current") ;;
  lift (subscript current "temperature_2m").

Definition tools : pyval :=
  PyList
    [PyDict
       [("type", PyStr "function");
        ("name", PyStr "get_weather");
        ("description",
         PyStr "Get current temperature for provided coordinates in celsius.");
        ("parameters",
         PyDict
           [("type", PyStr "object");
            ("properties",
             PyDict [("latitude", PyDict [("type", PyStr "number")]);
                     ("longitude", PyDict [("type", PyStr "number")])]);
            ("required", PyList [PyStr "latitude"; PyStr "longitude"]);
            ("additionalProperties", PyBool false)]);
        ("strict", PyBool true)]].

Definition user_query : string := "What's the weather like in Tokyo today?".

Definition input_messages : list input_item :=
  [Dict [("role", PyStr "user"); ("content", PyStr user_query)]].

(** [client.responses.create(model="gpt-4o", input=input, tools=tools)] *)
Definition create (input : list input_item) : M Response :=
  _ <- emit (Create "gpt-4o" input tools) ;;
  match responses_create w "gpt-4o" input tools with
  | Some r => ret r
  | None => lift (Raised APIError)
  end.

(** The cell that runs the tool: [response.output[0]], its arguments
    decoded, [get_weather] on the two coordinates. *)
Definition dispatch (response : Response) : M (output_item * pyval) :=
  tool_call <- lift (first_item response) ;;
  a <- lift (get_arguments tool_call) ;;
  args <- lift (json_loads a) ;;
  latitude <- lift (subscript args "latitude") ;;
  longitude <- lift (subscript args "longitude") ;;
  result <- get_weather latitude longitude ;;
  ret (tool_call, result).

Definition function_call_output (call_id : string) (result : pyval) : input_item :=
  Dict [("type", PyStr "function_call_output");
        ("call_id", PyStr call_id);
        ("output", PyStr (py_str result))].

(** The two [append]s of the last cell: the item itself, then a dict made
    of its [call_id] and of [str(result)].  (An item without a [call_id]
    would stop the cell between the two; the dispatcher never hands one
    over, see [dispatch_returns].) *)
Definition compose_followup (msgs : list input_item) (tool_call : output_item)
           (result : pyval) : outcome (list input_item) :=
  let msgs1 := (msgs ++ [Item tool_call])%list in
  match get_call_id tool_call with
  | Returned cid => Returned (msgs1 ++ [function_call_output cid result])%list
  | Raised e => Raised e
  end.

(** The last cell: append, ask again with the whole list, print. *)
Definition followup (msgs : list input_item) (tool_call : output_item)
           (result : pyval) : M (list input_item) :=
  msgs' <- lift (compose_followup msgs tool_call result) ;;
  response_2 <- create msgs' ;;
  _ <- emit (Stdout (output_text response_2)) ;;
  ret msgs'.

(** The cells of step 1 in order, from the list [msgs] on; the value is
    the list as the last cell leaves it. *)
Definition round_trip (msgs : list input_item) : M (list input_item) :=
  response <- create msgs ;;
  '(tool_call, result) <- dispatch response ;;
  followup msgs tool_call result.

Definition run : M (list input_item) := round_trip input_messages.

End Notebook.

(** The functions defined in the notebook. *)
Definition local_functions : list string := ["get_weather"].

(** The [input=] of every request of a trace, in order. *)
Definition inputs_sent (t : list event) : list (list input_item) :=
  flat_map (fun e => match e with Create _ i _ => [i] | _ => [] end) t.

(** The local calls of a trace, in order. *)
Definition calls (t : list event) : list (string * list pyval) :=
  flat_map (fun e => match e with Call f a => [(f, a)] | _ => [] end) t.

(** A request whose every [function_call_output] answers a function call
    that stands before it: [seen] are the call ids met so far. *)
Definition is_text (v : option pyval) (s : string) : bool :=
  match v with
  | Some (PyStr t) => String.eqb t s
  | _ => false
  end.

Fixpoint answers_matched (seen : list string) (l : list input_item) : bool :=
  match l with
  | [] => true
  | Item it :: r =>
      match get_call_id it with
      | Returned c => answers_matched (c :: seen) r
      | Raised _ => answers_matched seen r
      end
  | Dict d :: r =>
      if is_text (dict_get d "type") "function_call_output" then
        match dict_get d "call_id" with
        | Some (PyStr c) => existsb (String.eqb c) seen && answers_matched seen r
        | _ => false
        end
      else answers_matched seen r
  end.

(** ** The run recorded in the notebook, and variations of it *)

Definition dquote : string := String "034" EmptyString.
Definition quoted (s : string) : string := dquote ++ s ++ dquote.

(** The arguments text shown in the notebook's output. *)
Definition recorded_arguments : string :=
  "{" ++ quoted "latitude" ++ ":35.682839," ++ quoted "longitude" ++ ":139.759455}".

Definition recorded_call : output_item :=
  ResponseFunctionToolCall recorded_arguments "call_KqM2XlFWwa9VKR6A35JbXK1m"
    "get_weather" "fc_67fcae117d6881918df7e4b719a9abd10a45c2aed1083c1b" "completed".

(** The doubles nearest to 35.682839, 139.759455 and 20.5. *)
Definition tokyo_latitude : spec_float := S754_finite false 5021913138247544 (-47).
Definition tokyo_longitude : spec_float := S754_finite false 4917348667652372 (-45).
Definition float_20_5 : spec_float := S754_finite false 5770237022568448 (-48).

Definition tokyo_url : string :=
  "https://api.open-meteo.com/v1/forecast?latitude=35.682839&longitude=139.759455&current=temperature_2m,wind_speed_10m&hourly=temperature_2m,relative_humidity_2m,wind_speed_10m".

(** The body of the specification's example. *)
Definition body_20_5 : string :=
  "{" ++ quoted "current" ++ ":{" ++ quoted "temperature_2m" ++ ":20.5}}".

(** A fuller body, as the endpoint sends for the fields the URL names. *)
Definition body_full : string :=
  "{" ++ quoted "latitude" ++ ":35.7," ++ quoted "longitude" ++ ":139.75," ++
  quoted "current" ++ ":{" ++ quoted "time" ++ ":" ++ quoted "2025-04-14T06:45" ++
  "," ++ quoted "temperature_2m" ++ ":20.5," ++ quoted "wind_speed_10m" ++ ":3.2}," ++
  quoted "hourly" ++ ":{" ++ quoted "temperature_2m" ++ ":[19.8,20.1]," ++
  quoted "relative_humidity_2m" ++ ":[61,58]," ++ quoted "wind_speed_10m" ++
  ":[3.2,4.1]}}".

(** Arguments cut off in the middle. *)
Definition truncated_arguments : string := "{" ++ quoted "latitude" ++ ":35.68".

Definition final_message (text : string) : output_item :=
  ResponseOutputMessage "msg_1" [ResponseOutputText text] "assistant" "completed".

(** [repr] of a text that has no quote, backslash or unprintable
    character in it. *)
Definition repr_plain (s : string) : string := "'" ++ s ++ "'".

(** A world that answers a one-item request with [first] and any other
    with a closing message, and serves [body] for every URL. *)
Definition scripted (first : list output_item) (body : string) : World :=
  {| repr_str := repr_plain;
     responses_create := fun _ input _ =>
       match input with
       | [_] => Some {| output := first |}
       | _ => Some {| output := [final_message "The weather in Tokyo today is 20.5 C."] |}
       end;
     requests_get := fun _ => Some body;
     loads_gives_up := fun _ => false;
     json_gives_up := fun _ => false |}.

Definition recorded_world : World := scripted [recorded_call] body_20_5.

Definition full_body_world : World := scripted [recorded_call] body_full.

(** The model answers in words at once. *)
Definition plain_answer : output_item := final_message "It is sunny in Tokyo.".
Definition plain_world : World := scripted [plain_answer] body_20_5.


(** An interpreter short of stack: it gives up on every text it may give
    up on.  The model's arguments nest three deep. *)
Definition deep_arguments : string :=
  "{" ++ quoted "latitude" ++ ":[[35.68]]," ++ quoted "longitude" ++ ":139}".
Definition deep_call : output_item :=
  ResponseFunctionToolCall deep_arguments "call_6" "get_weather" "fc_6" "completed".
Definition cramped_world : World :=
  {| repr_str := repr_plain;
     responses_create := fun _ _ _ => Some {| output := [deep_call] |};
     requests_get := fun _ => Some body_20_5;
     loads_gives_up := fun _ => true;
     json_gives_up := fun _ => true |}.


(** The model asks for a function the notebook does not define. *)
Definition misnamed_call : output_item :=
  ResponseFunctionToolCall recorded_arguments "call_2" "get_time" "fc_2" "completed".
Definition misnamed_world : World := scripted [misnamed_call] body_20_5.

(** ** More worlds and observations *)

Definition has_key (d : list (string * pyval)) (k : string) : bool :=
  match dict_get d k with
  | Some _ => true
  | None => false
  end.

(** The schemas declared in [tools], the name of one and the keys its
    parameters are required to have. *)
Definition declared_tools : list pyval :=
  match tools with
  | PyList l => l
  | _ => []
  end.

Definition texts_of (v : pyval) : list string :=
  match v with
  | PyList l => flat_map (fun x => match x with PyStr s => [s] | _ => [] end) l
  | _ => []
  end.

Definition schema_required (schema : pyval) : list string :=
  match subscript schema "parameters" with
  | Returned p =>
      match subscript p "required" with
      | Returned l => texts_of l
      | Raised _ => []
      end
  | Raised _ => []
  end.

Definition schema_name (schema : pyval) : option string :=
  match subscript schema "name" with
  | Returned (PyStr n) => Some n
  | _ => None
  end.

(** The call ids of the [function_call_output] dicts of a list, in order. *)
Definition outputs_of (l : list input_item) : list string :=
  flat_map (fun i =>
              match i with
              | Dict d =>
                  if is_text (dict_get d "type") "function_call_output" then
                    match dict_get d "call_id" with
                    | Some (PyStr c) => [c]
                    | _ => []
                    end
                  else []
              | Item _ => []
              end) l.

(** The weather endpoint cannot be reached. *)
Definition unreachable_world : World :=
  {| repr_str := repr_plain;
     responses_create := responses_create recorded_world;
     requests_get := fun _ => None;
     loads_gives_up := fun _ => false;
     json_gives_up := fun _ => false |}.

(** The endpoint refuses the coordinates: an error body, no forecast. *)
Definition body_error : string :=
  "{" ++ quoted "error" ++ ":true," ++ quoted "reason" ++ ":" ++
  quoted "Latitude must be in range of -90 to 90." ++ "}".
Definition error_body_world : World := scripted [recorded_call] body_error.

(** The endpoint answers with a page that is no JSON at all. *)
Definition html_world : World := scripted [recorded_call] "<html>Bad Gateway</html>".

(** The model keeps asking for the tool: every answer is a function call. *)
Definition insistent_world : World :=
  {| repr_str := repr_plain;
     responses_create := fun _ _ _ => Some {| output := [recorded_call] |};
     requests_get := fun _ => Some body_20_5;
     loads_gives_up := fun _ => false;
     json_gives_up := fun _ => false |}.

(** The second request fails. *)
Definition second_fails_world : World :=
  {| repr_str := repr_plain;
     responses_create := fun _ input _ =>
       match input with
       | [_] => Some {| output := [recorded_call] |}
       | _ => None
       end;
     requests_get := fun _ => Some body_20_5;
     loads_gives_up := fun _ => false;
     json_gives_up := fun _ => false |}.

(** Arguments outside the schema: a text latitude, an integer longitude
    and a key the schema does not know. *)
Definition loose_arguments : string :=
  "{" ++ quoted "units" ++ ":" ++ quoted "celsius" ++ "," ++
  quoted "latitude" ++ ":" ++ quoted "35.68" ++ "," ++
  quoted "longitude" ++ ":139}".
Definition loose_call : output_item :=
  ResponseFunctionToolCall loose_arguments "call_3" "get_weather" "fc_3" "completed".
Definition loose_world : World := scripted [loose_call] body_20_5.

(** Arguments with the longitude left out. *)
Definition incomplete_arguments : string := "{" ++ quoted "latitude" ++ ":35.68}".
Definition incomplete_call : output_item :=
  ResponseFunctionToolCall incomplete_arguments "call_4" "get_weather" "fc_4" "completed".
Definition incomplete_world : World := scripted [incomplete_call] body_20_5.

(** Two function calls in one answer. *)
Definition second_call : output_item :=
  ResponseFunctionToolCall recorded_arguments "call_5" "get_weather" "fc_5" "completed".
Definition parallel_world : World := scripted [recorded_call; second_call] body_20_5.

(** The characters of a decimal numeral, and the step by which
    [Json.digits_value] reads one of them. *)
Fixpoint uint_chars (d : Decimal.uint) : list ascii :=
  match d with
  | Decimal.Nil => []
  | Decimal.D0 d => "0"%char :: uint_chars d
  | Decimal.D1 d => "1"%char :: uint_chars d
  | Decimal.D2 d => "2"%char :: uint_chars d
  | Decimal.D3 d => "3"%char :: uint_chars d
  | Decimal.D4 d => "4"%char :: uint_chars d
  | Decimal.D5 d => "5"%char :: uint_chars d
  | Decimal.D6 d => "6"%char :: uint_chars d
  | Decimal.D7 d => "7"%char :: uint_chars d
  | Decimal.D8 d => "8"%char :: uint_chars d
  | Decimal.D9 d => "9"%char :: uint_chars d
  end.

Definition digit_step (a : Z) (c : ascii) : Z :=
  (10 * a + (Z.of_N (N_of_ascii c) - 48))%Z.

(** The value a computation ends with, seen through [f]. *)
Definition on_ending {A B} (f : A -> B) (o : outcome A) : outcome B :=
  match o with
  | Returned a => Returned (f a)
  | Raised e => Raised e
  end.

(** * Facts *)

(** ** The decoder always answers

    Every scanner leaves less input than it was given when it succeeds,
    so the fuel handed out by [Json.decode] is enough. *)

Module JsonFacts.
Import Json.
Local Open Scope nat_scope.

Lemma skip_ws_length cs : List.length (skip_ws cs) <= List.length cs.
Proof.
  induction cs as [|c r IH]; simpl; [lia|].
  destruct (is_ws c); simpl; lia.
Qed.

Lemma skip_ws_cons cs c r :
  skip_ws cs = c :: r -> List.length r < List.length cs.
Proof.
  intros H. pose proof (skip_ws_length cs) as L. rewrite H in L. simpl in L. lia.
Qed.

Lemma span_digits_length cs ds r :
  span_digits cs = (ds, r) -> List.length r <= List.length cs.
Proof.
  revert ds r. induction cs as [|c cs IH]; simpl; intros ds r H.
  - inversion H; subst; simpl; lia.
  - destruct (is_digit c).
    + destruct (span_digits cs) as [ds' r'] eqn:E. inversion H; subst.
      specialize (IH _ _ eq_refl). lia.
    + inversion H; subst; simpl; lia.
Qed.

Lemma strip_prefix_length p cs r :
  strip_prefix p cs = Some r -> List.length r + List.length p = List.length cs.
Proof.
  revert cs r. induction p as [|a p IH]; simpl; intros cs r H.
  - inversion H; subst; lia.
  - destruct cs as [|c cs]; [discriminate|].
    destruct (Ascii.eqb a c); [|discriminate].
    apply IH in H. simpl. lia.
Qed.

Lemma scan_int_part_length cs ip r :
  scan_int_part cs = Some (ip, r) -> List.length r < List.length cs.
Proof.
  unfold scan_int_part. destruct cs as [|c cs]; [discriminate|].
  destruct (Ascii.eqb c "0").
  - intros H; inversion H; subst; simpl; lia.
  - destruct (is_digit c); [|discriminate].
    destruct (span_digits cs) as [ds r'] eqn:E. intros H; inversion H; subst.
    apply span_digits_length in E. simpl; lia.
Qed.

Lemma scan_frac_length cs ds r :
  scan_frac cs = Some (ds, r) -> List.length r <= List.length cs.
Proof.
  unfold scan_frac. destruct cs as [|c cs]; [discriminate|].
  destruct (Ascii.eqb c "."); [|discriminate].
  destruct (span_digits cs) as [ds' r'] eqn:E.
  apply span_digits_length in E.
  destruct ds'; [discriminate|]. intros H; inversion H; subst. simpl; lia.
Qed.

Lemma scan_sign_length cs b r :
  scan_sign cs = (b, r) -> List.length r <= List.length cs.
Proof.
  unfold scan_sign. destruct cs as [|c cs].
  - intros H; inversion H; subst; simpl; lia.
  - destruct (Ascii.eqb c "-"); [intros H; inversion H; subst; simpl; lia|].
    destruct (Ascii.eqb c "+"); intros H; inversion H; subst; simpl; lia.
Qed.

Lemma scan_exp_length cs e r :
  scan_exp cs = Some (e, r) -> List.length r <= List.length cs.
Proof.
  unfold scan_exp. destruct cs as [|c cs]; [discriminate|].
  destruct (Ascii.eqb c "e" || Ascii.eqb c "E"); [|discriminate].
  destruct (scan_sign cs) as [neg r1] eqn:S1. apply scan_sign_length in S1.
  destruct (span_digits r1) as [ds r'] eqn:E. apply span_digits_length in E.
  destruct ds; [discriminate|]. intros H; inversion H; subst. simpl; lia.
Qed.

Lemma match_number_length cs v r :
  match_number cs = Some (v, r) -> List.length r < List.length cs.
Proof.
  unfold match_number.
  set (nr := match cs with
             | [] => (false, [])
             | c :: r0 => if Ascii.eqb c "-" then (true, r0) else (false, cs)
             end).
  assert (Hnr : List.length (snd nr) <= List.length cs).
  { subst nr. destruct cs as [|c cs]; simpl; [lia|].
    destruct (Ascii.eqb c "-"); simpl; lia. }
  destruct nr as [neg r0]. simpl in Hnr.
  destruct (scan_int_part r0) as [[ip r1]|] eqn:I; [|discriminate].
  apply scan_int_part_length in I.
  destruct (scan_frac r1) as [[fd r2]|] eqn:F.
  - apply scan_frac_length in F.
    destruct (scan_exp r2) as [[e r3]|] eqn:X.
    + apply scan_exp_length in X. intros H; inversion H; subst. lia.
    + intros H; inversion H; subst. lia.
  - destruct (scan_exp r1) as [[e r3]|] eqn:X.
    + apply scan_exp_length in X. intros H; inversion H; subst. lia.
    + intros H; inversion H; subst. lia.
Qed.

Lemma lit_length s cs r :
  lit s cs = Some r -> s <> EmptyString -> List.length r < List.length cs.
Proof.
  unfold lit. intros H Hs. apply strip_prefix_length in H.
  destruct s; [congruence|]. simpl in H. lia.
Qed.

Lemma scan_atom_length cs v r :
  scan_atom cs = Scanned v r -> List.length r < List.length cs.
Proof.
  unfold scan_atom.
  repeat match goal with
  | |- context [lit ?s cs] =>
      let E := fresh "E" in
      destruct (lit s cs) eqn:E;
      [ intros H; inversion H; subst; apply lit_length in E; [exact E|discriminate] | ]
  end.
  destruct (match_number cs) as [[v' r']|] eqn:N; [|discriminate].
  intros H; inversion H; subst. now apply match_number_length in N.
Qed.

Lemma scan_atom_not_exhausted cs : scan_atom cs <> Exhausted.
Proof.
  unfold scan_atom.
  repeat match goal with
  | |- context [lit ?s cs] => destruct (lit s cs); [discriminate|]
  end.
  destruct (match_number cs) as [[v' r']|]; discriminate.
Qed.
Lemma scanstring_spec n :
  forall cs acc, List.length cs <= n ->
    scanstring cs acc <> Exhausted /\
    (forall s r, scanstring cs acc = Scanned s r -> List.length r < List.length cs).
Proof.
  induction n as [|n IH]; intros cs acc Hn.
  - destruct cs; simpl in Hn; [|lia]. cbn [scanstring]. split; discriminate.
  - assert (Step : forall r' acc', List.length r' < List.length cs ->
              scanstring r' acc' <> Exhausted /\
              (forall s r, scanstring r' acc' = Scanned s r ->
                           List.length r < List.length cs)).
    { intros r' acc' Hr. destruct (IH r' acc') as [A B]; [lia|].
      split; [exact A|]. intros s r E. apply B in E. lia. }
    destruct cs as [|c r]; cbn [scanstring]; [split; discriminate|].
    destruct (Ascii.eqb c "034").
    { split; [discriminate|]. intros s r0 E. inversion E; subst. simpl. lia. }
    destruct (Ascii.eqb c "\").
    2:{ destruct (N.ltb (N_of_ascii c) 32); [split; discriminate|].
        apply Step. simpl. lia. }
    destruct r as [|e r1]; [split; discriminate|].
    destruct (Ascii.eqb e "u").
    2:{ destruct (unescape e); [|split; discriminate]. apply Step. simpl. lia. }
    destruct r1 as [|h1 [|h2 [|h3 [|h4 r2]]]]; try (split; discriminate).
    destruct (hex4 h1 h2 h3 h4) as [u|]; [|split; discriminate].
    destruct r2 as [|b [|e' [|g1 [|g2 [|g3 [|g4 r3]]]]]];
      try (apply Step; simpl; lia).
    destruct (is_high_surrogate u && Ascii.eqb b "\" && Ascii.eqb e' "u");
      [|apply Step; simpl; lia].
    destruct (hex4 g1 g2 g3 g4) as [v|]; [|split; discriminate].
    destruct (is_low_surrogate v); apply Step; simpl; lia.
Qed.

Lemma scanstring_length cs acc s r :
  scanstring cs acc = Scanned s r -> List.length r < List.length cs.
Proof. apply (scanstring_spec (List.length cs)). lia. Qed.

Lemma scanstring_not_exhausted cs acc : scanstring cs acc <> Exhausted.
Proof. apply (scanstring_spec (List.length cs)). lia. Qed.

Lemma scan_consumes fuel :
  consumes (scan_once fuel) /\
  (forall acc, consumes (fun cs => parse_items fuel cs acc)) /\
  (forall acc, consumes (fun cs => parse_members fuel cs acc)).
Proof.
  unfold consumes.
  induction fuel as [|fuel (IHv & IHi & IHm)]; [repeat split; discriminate|].
  repeat split.
  - intros cs v r. cbn [scan_once].
    destruct cs as [|c cs]; [discriminate|].
    destruct (Ascii.eqb c "034").
    { destruct (scanstring cs []) as [s r'| |] eqn:E; try discriminate.
      intros H; inversion H; subst. apply scanstring_length in E. simpl. lia. }
    destruct (Ascii.eqb c "{").
    { destruct (skip_ws cs) as [|c' r'] eqn:W; [discriminate|].
      pose proof (skip_ws_length cs) as L. rewrite W in L.
      destruct (Ascii.eqb c' "}").
      - intros H; inversion H; subst. simpl in *. lia.
      - intros H. apply IHm in H. simpl in *. lia. }
    destruct (Ascii.eqb c "[").
    { destruct (skip_ws cs) as [|c' r'] eqn:W; [discriminate|].
      pose proof (skip_ws_length cs) as L. rewrite W in L.
      destruct (Ascii.eqb c' "]").
      - intros H; inversion H; subst. simpl in *. lia.
      - intros H. apply IHi in H. simpl in *. lia. }
    apply scan_atom_length.
  - intros acc cs v r. cbn [parse_items].
    destruct (scan_once fuel cs) as [x r1| |] eqn:E; try discriminate.
    apply IHv in E.
    destruct (skip_ws r1) as [|c r2] eqn:W; [discriminate|].
    apply skip_ws_cons in W.
    destruct (Ascii.eqb c "]").
    { intros H; inversion H; subst. lia. }
    destruct (Ascii.eqb c ","); [|discriminate].
    intros H. apply IHi in H. pose proof (skip_ws_length r2). lia.
  - intros acc cs v r. cbn [parse_members].
    destruct cs as [|q cs]; [discriminate|].
    destruct (Ascii.eqb q "034"); [|discriminate].
    destruct (scanstring cs []) as [key r1| |] eqn:E; try discriminate.
    apply scanstring_length in E.
    destruct (skip_ws r1) as [|c r2] eqn:W; [discriminate|].
    apply skip_ws_cons in W.
    destruct (Ascii.eqb c ":"); [|discriminate].
    destruct (scan_once fuel (skip_ws r2)) as [x r3| |] eqn:V; try discriminate.
    apply IHv in V. pose proof (skip_ws_length r2).
    destruct (skip_ws r3) as [|c' r4] eqn:W'; [discriminate|].
    apply skip_ws_cons in W'.
    destruct (Ascii.eqb c' "}").
    { intros H'; inversion H'; subst. simpl. lia. }
    destruct (Ascii.eqb c' ","); [|discriminate].
    intros H'. apply IHm in H'. pose proof (skip_ws_length r4). simpl. lia.
Qed.

Lemma scan_enough_fuel fuel :
  (forall cs, 2 * List.length cs + 1 <= fuel -> scan_once fuel cs <> Exhausted) /\
  (forall cs acc, 2 * List.length cs + 2 <= fuel ->
                  parse_items fuel cs acc <> Exhausted) /\
  (forall cs acc, 2 * List.length cs + 2 <= fuel ->
                  parse_members fuel cs acc <> Exhausted).
Proof.
  induction fuel as [|fuel (IHv & IHi & IHm)]; [repeat split; intros; lia|].
  destruct (scan_consumes fuel) as (Cv & Ci & Cm). unfold consumes in *.
  repeat split.
  - intros cs Hf. cbn [scan_once].
    destruct cs as [|c cs]; [discriminate|]. simpl in Hf.
    destruct (Ascii.eqb c "034").
    { pose proof (scanstring_not_exhausted cs []).
      destruct (scanstring cs []); congruence. }
    destruct (Ascii.eqb c "{").
    { destruct (skip_ws cs) as [|c' r'] eqn:W; [discriminate|].
      pose proof (skip_ws_length cs) as L. rewrite W in L.
      destruct (Ascii.eqb c' "}"); [discriminate|].
      apply IHm. lia. }
    destruct (Ascii.eqb c "[").
    { destruct (skip_ws cs) as [|c' r'] eqn:W; [discriminate|].
      pose proof (skip_ws_length cs) as L. rewrite W in L.
      destruct (Ascii.eqb c' "]"); [discriminate|].
      apply IHi. lia. }
    apply scan_atom_not_exhausted.
  - intros cs acc Hf. cbn [parse_items].
    pose proof (IHv cs ltac:(lia)) as NE.
    destruct (scan_once fuel cs) as [x r1| |] eqn:E; [|discriminate|congruence].
    apply Cv in E.
    destruct (skip_ws r1) as [|c r2] eqn:W; [discriminate|].
    apply skip_ws_cons in W.
    destruct (Ascii.eqb c "]"); [discriminate|].
    destruct (Ascii.eqb c ","); [|discriminate].
    apply IHi. pose proof (skip_ws_length r2). lia.
  - intros cs acc Hf. cbn [parse_members].
    destruct cs as [|q cs]; [discriminate|]. simpl in Hf.
    destruct (Ascii.eqb q "034"); [|discriminate].
    pose proof (scanstring_not_exhausted cs []) as NS.
    destruct (scanstring cs []) as [key r1| |] eqn:E; [|discriminate|congruence].
    apply scanstring_length in E.
    destruct (skip_ws r1) as [|c r2] eqn:W; [discriminate|].
    apply skip_ws_cons in W.
    destruct (Ascii.eqb c ":"); [|discriminate].
    pose proof (skip_ws_length r2).
    pose proof (IHv (skip_ws r2) ltac:(lia)) as NE.
    destruct (scan_once fuel (skip_ws r2)) as [x r3| |] eqn:V;
      [|discriminate|congruence].
    apply Cv in V.
    destruct (skip_ws r3) as [|c' r4] eqn:W'; [discriminate|].
    apply skip_ws_cons in W'.
    destruct (Ascii.eqb c' "}"); [discriminate|].
    destruct (Ascii.eqb c' ","); [|discriminate].
    apply IHm. pose proof (skip_ws_length r4). lia.
Qed.

(** The scanner's fuel is never what stops the decoder. *)
Lemma decode_not_exhausted s : decode s <> Raised RecursionError.
Proof.
  unfold decode.
  set (cs := list_ascii_of_string s).
  pose proof (skip_ws_length cs) as L.
  destruct (scan_enough_fuel (2 * List.length cs + 2)) as (Hv & _ & _).
  specialize (Hv (skip_ws cs) ltac:(lia)).
  destruct (scan_once (2 * List.length cs + 2) (skip_ws cs)) as [v r| |];
    [|discriminate|congruence].
  destruct (skip_ws r); discriminate.
Qed.

(** So a text stands for a value or is malformed. *)
Lemma decode_total s :
  (exists v, decode s = Returned v) \/ decode s = Raised JSONDecodeError.
Proof.
  pose proof (decode_not_exhausted s) as NE. unfold decode in *.
  destruct (scan_once _ _) as [v r| |]; [|now right|congruence].
  destruct (skip_ws r); [left; eauto|now right].
Qed.

End JsonFacts.

(** ** The two models at work

    Values and texts as CPython 3.10 gives them. *)

Example float_of_tenth_plus_fifth :
  Float64.repr (SFadd Float64.prec Float64.emax
                  (Float64.of_decimal false 1 (-1)) (Float64.of_decimal false 2 (-1)))
  = "0.30000000000000004".
Proof. vm_compute. reflexivity. Qed.

Example repr_switches_to_exponent :
  map Float64.repr
    [Float64.of_decimal false 1 15; Float64.of_decimal false 1 16;
     Float64.of_decimal false 1 23; Float64.of_decimal false 1 (-4);
     Float64.of_decimal false 1 (-5); Float64.of_decimal true 25 (-1);
     Float64.of_decimal false 5 (-324); Float64.of_decimal false 1 400]
  = ["1000000000000000.0"; "1e+16"; "1e+23"; "0.0001"; "1e-05"; "-2.5";
     "5e-324"; "inf"].
Proof. vm_compute. reflexivity. Qed.

Example decode_numbers :
  map Json.decode ["1"; "-0"; "1.0"; "1e2"; "01"; "1."; ".5"; "NaN"]
  = [Returned (PyInt 1); Returned (PyInt 0);
     Returned (PyFloat (S754_finite false 4503599627370496 (-52)));
     Returned (PyFloat (S754_finite false 7036874417766400 (-46)));
     Raised JSONDecodeError; Raised JSONDecodeError; Raised JSONDecodeError;
     Returned (PyFloat S754_nan)].
Proof. vm_compute. reflexivity. Qed.

Example decode_containers :
  map Json.decode
    ["[1, [true, null], {}]"; "[1,]"; "[1 2]"; "{1:2}"; " [ ] "; "[] []";
     "{" ++ quoted "a" ++ ":1," ++ quoted "b" ++ ":2," ++ quoted "a" ++ ":3}";
     "{" ++ quoted "a" ++ ":1,}";
     quoted "caf\u00e9 \n"; quoted "open"]
  = [Returned (PyList [PyInt 1; PyList [PyBool true; PyNone]; PyDict []]);
     Raised JSONDecodeError; Raised JSONDecodeError; Raised JSONDecodeError;
     Returned (PyList []); Raised JSONDecodeError;
     Returned (PyDict [("a", PyInt 3); ("b", PyInt 2)]);
     Raised JSONDecodeError;
     Returned (PyStr (String "c" (String "a" (String "f" (String "195"
                (String "169" (String " " (String "010" EmptyString))))))));
     Returned (PyStr "open")].
Proof. vm_compute. reflexivity. Qed.

Example decode_within_limit :
  map (decode_within (fun _ => true)) ["[[1]]"; "[[[1]]]"; "[[[1"; "[[1"]
  = [Returned (PyList [PyList [PyInt 1]]); Raised RecursionError;
     Raised RecursionError; Raised JSONDecodeError].
Proof. vm_compute. reflexivity. Qed.

Example recorded_doubles_are_binary64 :
  map (valid_binary Float64.prec Float64.emax)
      [tokyo_latitude; tokyo_longitude; float_20_5] = [true; true; true].
Proof. vm_compute. reflexivity. Qed.

(** ** The cells, step by step *)

Section CellFacts.

Variable w : World.

Lemma get_weather_trace latitude longitude :
  trace (get_weather w latitude longitude) =
  [Call "get_weather" [latitude; longitude];
   Get (weather_url w latitude longitude)].
Proof.
  unfold get_weather, http_get_json, trace, bind, emit, lift.
  destruct (requests_get w _) as [body|]; [|reflexivity].
  destruct (response_json w body) as [data|e]; [|reflexivity].
  destruct (subscript data "current") as [cur|e]; [|reflexivity].
  destruct (subscript cur "temperature_2m"); reflexivity.
Qed.

(** What [get_weather] gives back is the [temperature_2m] entry of the
    [current] entry of the decoded body, whatever else the body holds. *)
Lemma get_weather_result latitude longitude :
  ending (get_weather w latitude longitude) =
  match requests_get w (weather_url w latitude longitude) with
  | None => Raised RequestException
  | Some body =>
      match response_json w body with
      | Raised e => Raised e
      | Returned data =>
          match subscript data "current" with
          | Raised e => Raised e
          | Returned cur => subscript cur "temperature_2m"
          end
      end
  end.
Proof.
  unfold get_weather, http_get_json, ending, bind, emit, lift.
  destruct (requests_get w _) as [body|]; [|reflexivity].
  destruct (response_json w body) as [data|e]; [|reflexivity].
  destruct (subscript data "current") as [cur|e]; [|reflexivity].
  destruct (subscript cur "temperature_2m"); reflexivity.
Qed.

(** The dispatcher cell, spelled out by cases. *)
Lemma dispatch_unfold r :
  dispatch w r =
  match first_item r with
  | Raised e => ([], Raised e)
  | Returned tool_call =>
      match get_arguments tool_call with
      | Raised e => ([], Raised e)
      | Returned a =>
          match json_loads w a with
          | Raised e => ([], Raised e)
          | Returned args =>
              match subscript args "latitude" with
              | Raised e => ([], Raised e)
              | Returned latitude =>
                  match subscript args "longitude" with
                  | Raised e => ([], Raised e)
                  | Returned longitude =>
                      (trace (get_weather w latitude longitude),
                       match ending (get_weather w latitude longitude) with
                       | Returned result => Returned (tool_call, result)
                       | Raised e => Raised e
                       end)
                  end
              end
          end
      end
  end.
Proof.
  unfold dispatch, bind, lift, ret, trace, ending.
  destruct (first_item r) as [tc|]; [|reflexivity].
  destruct (get_arguments tc) as [a|]; [|reflexivity].
  destruct (json_loads w a) as [args|]; [|reflexivity].
  destruct (subscript args "latitude") as [la|]; [|reflexivity].
  destruct (subscript args "longitude") as [lo|]; [|reflexivity].
  destruct (get_weather w la lo) as [t [result|e]]; simpl;
    rewrite ?app_nil_r; reflexivity.
Qed.

Lemma dispatch_trace r :
  trace (dispatch w r) = [] \/
  exists latitude longitude,
    trace (dispatch w r) =
    [Call "get_weather" [latitude; longitude];
     Get (weather_url w latitude longitude)].
Proof.
  rewrite dispatch_unfold.
  destruct (first_item r) as [tc|]; [|now left].
  destruct (get_arguments tc) as [a|]; [|now left].
  destruct (json_loads w a) as [args|]; [|now left].
  destruct (subscript args "latitude") as [la|]; [|now left].
  destruct (subscript args "longitude") as [lo|]; [|now left].
  right. exists la, lo. apply get_weather_trace.
Qed.

Lemma dispatch_sends_nothing r : inputs_sent (trace (dispatch w r)) = [].
Proof.
  destruct (dispatch_trace r) as [E|(la & lo & E)]; rewrite E; reflexivity.
Qed.

(** When the dispatcher returns, the item it returns is the first
    output item, and that item is a function call. *)
Lemma dispatch_returns r tool_call result :
  ending (dispatch w r) = Returned (tool_call, result) ->
  first_item r = Returned tool_call /\ is_function_call tool_call = true.
Proof.
  rewrite dispatch_unfold.
  destruct (first_item r) as [tc|]; [|discriminate].
  destruct (get_arguments tc) as [a|] eqn:A; [|discriminate].
  destruct (json_loads w a) as [args|]; [|discriminate].
  destruct (subscript args "latitude") as [la|]; [|discriminate].
  destruct (subscript args "longitude") as [lo|]; [|discriminate].
  cbn [ending snd].
  destruct (ending (get_weather w la lo)); [|discriminate].
  intros H; inversion H; subst. split; [reflexivity|].
  destruct tool_call; simpl in A; try discriminate. reflexivity.
Qed.

Lemma function_call_has_call_id it :
  is_function_call it = true -> exists cid, get_call_id it = Returned cid.
Proof. destruct it; try discriminate. simpl. eauto. Qed.

(** The last cell on a function call. *)
Lemma followup_unfold msgs tool_call cid result :
  get_call_id tool_call = Returned cid ->
  let msgs' := (msgs ++ [Item tool_call; function_call_output w cid result])%list in
  followup w msgs tool_call result =
  match responses_create w "gpt-4o" msgs' tools with
  | Some r2 => ([Create "gpt-4o" msgs' tools; Stdout (output_text r2)],
                Returned msgs')
  | None => ([Create "gpt-4o" msgs' tools], Raised APIError)
  end.
Proof.
  intros C. unfold followup, compose_followup. rewrite C.
  rewrite <- app_assoc. cbn [app].
  unfold create, bind, lift, emit, ret.
  destruct (responses_create w _ _ _); reflexivity.
Qed.

(** The whole of step 1, by cases on the first answer. *)
Lemma round_trip_unfold msgs :
  round_trip w msgs =
  match responses_create w "gpt-4o" msgs tools with
  | None => ([Create "gpt-4o" msgs tools], Raised APIError)
  | Some r =>
      match ending (dispatch w r) with
      | Raised e => (Create "gpt-4o" msgs tools :: trace (dispatch w r), Raised e)
      | Returned (tool_call, result) =>
          (Create "gpt-4o" msgs tools :: trace (dispatch w r)
             ++ trace (followup w msgs tool_call result),
           ending (followup w msgs tool_call result))%list
      end
  end.
Proof.
  unfold round_trip, create, bind at 1 2, emit, lift, ret.
  destruct (responses_create w _ _ _) as [r|]; [|reflexivity].
  cbn [app]. unfold bind, trace, ending.
  destruct (dispatch w r) as [t [[tc result]|e]]; cbn [fst snd]; [|reflexivity].
  destruct (followup w msgs tc result) as [t' o]. reflexivity.
Qed.

Lemma inputs_sent_app t1 t2 : inputs_sent (t1 ++ t2) = (inputs_sent t1 ++ inputs_sent t2)%list.
Proof. unfold inputs_sent. apply flat_map_app. Qed.

(** A run sends one request, or two; the second is the first with the
    function call and its output appended. *)
Lemma round_trip_inputs_sent msgs :
  inputs_sent (trace (round_trip w msgs)) = [msgs] \/
  exists r tool_call cid result,
    responses_create w "gpt-4o" msgs tools = Some r /\
    ending (dispatch w r) = Returned (tool_call, result) /\
    get_call_id tool_call = Returned cid /\
    inputs_sent (trace (round_trip w msgs)) =
    [msgs; (msgs ++ [Item tool_call; function_call_output w cid result])%list].
Proof.
  rewrite round_trip_unfold.
  destruct (responses_create w _ _ _) as [r|] eqn:R; [|now left].
  destruct (ending (dispatch w r)) as [[tc result]|e] eqn:D.
  - right. destruct (dispatch_returns _ _ _ D) as [_ F].
    destruct (function_call_has_call_id _ F) as [cid C].
    exists r, tc, cid, result. repeat split; try assumption.
    cbn [trace fst]. change (Create "gpt-4o" msgs tools :: ?t) with ([Create "gpt-4o" msgs tools] ++ t)%list.
    rewrite !inputs_sent_app, dispatch_sends_nothing.
    rewrite (followup_unfold msgs tc cid result C). cbn zeta.
    destruct (responses_create w "gpt-4o" (msgs ++ _) tools); reflexivity.
  - left. cbn [trace fst].
    change (Create "gpt-4o" msgs tools :: ?t) with ([Create "gpt-4o" msgs tools] ++ t)%list.
    rewrite inputs_sent_app, dispatch_sends_nothing. reflexivity.
Qed.

End CellFacts.

(** ** The claims *)

(** C8. The request composer's list has exactly one element, a dict whose
    role is "user" and whose content is the query, and it is what every
    run sends first, together with the tool schemas. *)
Theorem request_composer_one_user_message :
  List.length input_messages = 1%nat /\
  (exists d, nth_error input_messages 0 = Some (Dict d) /\
             dict_get d "role" = Some (PyStr "user") /\
             dict_get d "content" = Some (PyStr user_query)) /\
  forall w : World, exists t,
    trace (run w) = Create "gpt-4o" input_messages tools :: t.
Proof.
  split; [reflexivity|]. split.
  - eexists. repeat split.
  - intros w. unfold run. rewrite round_trip_unfold.
    destruct (responses_create w _ _ _) as [r|]; [|eexists; reflexivity].
    destruct (ending (dispatch w r)) as [[tc result]|e]; eexists; reflexivity.
Qed.



(** C2, as the code has it.  A first answer without any function call
    stops the run in the dispatcher cell: [IndexError] on an empty output,
    [AttributeError] on a first item that has no [arguments].  The request
    is all that has happened by then: no local call, no second request,
    nothing printed. *)
Theorem no_function_call_raises (w : World) (msgs : list input_item) (r : Response) :
  responses_create w "gpt-4o" msgs tools = Some r ->
  existsb is_function_call (output r) = false ->
  round_trip w msgs =
  ([Create "gpt-4o" msgs tools],
   Raised match output r with
          | [] => IndexError
          | _ :: _ => AttributeError
          end).
Proof.
  intros R N. rewrite round_trip_unfold, R, dispatch_unfold.
  unfold first_item. destruct (output r) as [|it rest]; [reflexivity|].
  cbn [existsb] in N. apply orb_false_elim in N as [N _].
  destruct it; try discriminate; reflexivity.
Qed.

Lemma no_function_call_raises_witness :
  round_trip plain_world input_messages =
  ([Create "gpt-4o" input_messages tools], Raised AttributeError).
Proof.
  apply (no_function_call_raises plain_world input_messages
           {| output := [plain_answer] |}); reflexivity.
Defined.

(** C2 fails as stated: the model answers in plain words, and the run
    ends in [AttributeError] with nothing printed. *)
Lemma plain_answer_is_not_returned :
  responses_create plain_world "gpt-4o" input_messages tools
    = Some {| output := [plain_answer] |} /\
  existsb is_function_call [plain_answer] = false /\
  output_text {| output := [plain_answer] |} = "It is sunny in Tokyo." /\
  ending (run plain_world) = Raised AttributeError /\
  ~ In (Stdout "It is sunny in Tokyo.") (trace (run plain_world)).
Proof.
  repeat split. vm_compute. intros [H|[]]. discriminate.
Qed.

(** C3. The list the two appends produce ends with the function-call item
    followed by a [function_call_output] dict whose [call_id] is the
    item's own. *)
Theorem followup_call_id_matches
  (w : World) (msgs : list input_item) (tool_call : output_item) (result : pyval)
  (msgs' : list input_item) :
  compose_followup w msgs tool_call result = Returned msgs' ->
  exists cid out,
    msgs' = (msgs ++ [Item tool_call; Dict out])%list /\
    is_function_call tool_call = true /\
    get_call_id tool_call = Returned cid /\
    dict_get out "type" = Some (PyStr "function_call_output") /\
    dict_get out "call_id" = Some (PyStr cid) /\
    nth_error msgs' (List.length msgs) = Some (Item tool_call) /\
    nth_error msgs' (S (List.length msgs)) = Some (Dict out).
Proof.
  unfold compose_followup.
  destruct tool_call as [a cid n i s| |]; cbn [get_call_id]; try discriminate.
  intros H. inversion H; subst msgs'. clear H.
  exists cid. eexists. rewrite <- app_assoc. cbn [app].
  split; [reflexivity|]. repeat split.
  - rewrite nth_error_app2, Nat.sub_diag; [reflexivity|lia].
  - rewrite nth_error_app2 by lia.
    replace (S (List.length msgs) - List.length msgs)%nat with 1%nat by lia.
    reflexivity.
Qed.

Lemma followup_call_id_matches_witness :
  exists cid out,
    (input_messages ++
       [Item recorded_call;
        function_call_output recorded_world "call_KqM2XlFWwa9VKR6A35JbXK1m"
          (PyFloat float_20_5)])%list
      = (input_messages ++ [Item recorded_call; Dict out])%list /\
    is_function_call recorded_call = true /\
    get_call_id recorded_call = Returned cid /\
    dict_get out "type" = Some (PyStr "function_call_output") /\
    dict_get out "call_id" = Some (PyStr cid) /\
    nth_error (input_messages ++
       [Item recorded_call;
        function_call_output recorded_world "call_KqM2XlFWwa9VKR6A35JbXK1m"
          (PyFloat float_20_5)])%list (List.length input_messages)
      = Some (Item recorded_call) /\
    nth_error (input_messages ++
       [Item recorded_call;
        function_call_output recorded_world "call_KqM2XlFWwa9VKR6A35JbXK1m"
          (PyFloat float_20_5)])%list (S (List.length input_messages))
      = Some (Dict out).
Proof.
  apply (followup_call_id_matches recorded_world input_messages recorded_call
           (PyFloat float_20_5)).
  reflexivity.
Defined.

(** ** Answers stand after their calls, in every request *)

Lemma answers_matched_app (l1 l2 : list input_item) :
  forall seen,
    answers_matched seen l1 = true ->
    (forall seen', incl seen seen' -> answers_matched seen' l2 = true) ->
    answers_matched seen (l1 ++ l2) = true.
Proof.
  induction l1 as [|x l1 IH]; intros seen H1 H2; cbn [app].
  - apply H2, incl_refl.
  - destruct x as [d|it]; cbn [answers_matched] in *.
    + destruct (is_text (dict_get d "type") "function_call_output").
      * destruct (dict_get d "call_id") as [[| | | |c| |]|]; try discriminate.
        apply andb_true_iff in H1 as [E H1]. rewrite E. cbn [andb].
        now apply IH.
      * now apply IH.
    + destruct (get_call_id it) as [c|].
      * apply IH; [assumption|]. intros seen' I. apply H2.
        intros y Hy. apply I. now right.
      * now apply IH.
Qed.

Lemma answer_after_call (w : World) (it : output_item) (cid : string)
      (result : pyval) (seen : list string) :
  get_call_id it = Returned cid ->
  answers_matched seen [Item it; function_call_output w cid result] = true.
Proof.
  intros C. cbn [answers_matched]. rewrite C.
  unfold function_call_output. cbn [answers_matched dict_get].
  change (String.eqb "type" "type") with true.
  change (String.eqb "call_id" "type") with false.
  change (String.eqb "call_id" "call_id") with true.
  cbn [is_text]. change (String.eqb "function_call_output" "function_call_output") with true.
  cbn [existsb]. now rewrite String.eqb_refl.
Qed.

(** X10. Starting from a list in which every output answers an earlier
    call, every request of the run is such a list. *)
Lemma sent_answers_matched (w : World) (msgs : list input_item) :
  answers_matched [] msgs = true ->
  Forall (fun input => answers_matched [] input = true)
         (inputs_sent (trace (round_trip w msgs))).
Proof.
  intros H.
  destruct (round_trip_inputs_sent w msgs) as [E|(r & tc & cid & result & _ & _ & C & E)];
    rewrite E; repeat constructor; try assumption.
  apply answers_matched_app; [assumption|].
  intros seen' _. now apply answer_after_call.
Qed.

(** Arguments cut off in the middle are malformed. *)
Lemma truncated_arguments_malformed (w : World) :
  json_loads w truncated_arguments = Raised JSONDecodeError.
Proof. vm_compute. reflexivity. Qed.




(** X11. A local call is only ever made on arguments that did decode:
    the function is [get_weather] and its two parameters are the entries
    found under [latitude] and [longitude]. *)
Lemma local_call_needs_decoded_arguments
  (w : World) (r : Response) (f : string) (params : list pyval) :
  In (f, params) (calls (trace (dispatch w r))) ->
  exists tool_call a args latitude longitude,
    first_item r = Returned tool_call /\
    get_arguments tool_call = Returned a /\
    json_loads w a = Returned args /\
    subscript args "latitude" = Returned latitude /\
    subscript args "longitude" = Returned longitude /\
    f = "get_weather" /\ params = [latitude; longitude].
Proof.
  rewrite dispatch_unfold.
  destruct (first_item r) as [tc|] eqn:F; [|intros []].
  destruct (get_arguments tc) as [a|] eqn:A; [|intros []].
  destruct (json_loads w a) as [args|] eqn:J; [|intros []].
  destruct (subscript args "latitude") as [la|] eqn:La; [|intros []].
  destruct (subscript args "longitude") as [lo|] eqn:Lo; [|intros []].
  cbn [trace fst].
  change (fst (get_weather w la lo)) with (trace (get_weather w la lo)).
  rewrite get_weather_trace. cbn. intros [H|[]]. inversion H; subst.
  exists tc, a, args, la, lo. repeat split; assumption.
Qed.





Lemma recorded_arguments_decode (w : World) :
  json_loads w recorded_arguments =
  Returned (PyDict [("latitude", PyFloat tokyo_latitude);
                    ("longitude", PyFloat tokyo_longitude)]).
Proof. vm_compute. reflexivity. Qed.

Lemma tokyo_url_formatted (w : World) :
  weather_url w (PyFloat tokyo_latitude) (PyFloat tokyo_longitude) = tokyo_url.
Proof. vm_compute. reflexivity. Qed.

(** C6. The recorded arguments decode to the two doubles nearest to
    35.682839 and 139.759455, under the keys [latitude] and [longitude];
    the dispatcher's one local call is [get_weather] on exactly these two,
    in this order, and the URL it fetches shows them. *)
Theorem recorded_arguments_dispatch
  (w : World) (cid name id status : string) (rest : list output_item) :
  json_loads w recorded_arguments =
    Returned (PyDict [("latitude", PyFloat tokyo_latitude);
                      ("longitude", PyFloat tokyo_longitude)]) /\
  Float64.rounds tokyo_latitude 35682839 1000000 = true /\
  Float64.rounds tokyo_longitude 139759455 1000000 = true /\
  trace (dispatch w {| output :=
           ResponseFunctionToolCall recorded_arguments cid name id status :: rest |})
    = [Call "get_weather" [PyFloat tokyo_latitude; PyFloat tokyo_longitude];
       Get tokyo_url].
Proof.
  split; [exact (recorded_arguments_decode w)|].
  split; [vm_compute; reflexivity|]. split; [vm_compute; reflexivity|].
  rewrite dispatch_unfold. cbn [first_item output get_arguments].
  rewrite recorded_arguments_decode. cbn [subscript dict_get].
  change (String.eqb "latitude" "latitude") with true.
  change (String.eqb "longitude" "latitude") with false.
  change (String.eqb "longitude" "longitude") with true.
  cbn iota. cbn [trace fst].
  change (fst (get_weather w (PyFloat tokyo_latitude) (PyFloat tokyo_longitude)))
    with (trace (get_weather w (PyFloat tokyo_latitude) (PyFloat tokyo_longitude))).
  rewrite get_weather_trace, tokyo_url_formatted. reflexivity.
Qed.

Lemma dispatch_calls (w : World) (r : Response) :
  Forall (fun c => fst c = "get_weather") (calls (trace (dispatch w r))).
Proof.
  destruct (dispatch_trace w r) as [E|(la & lo & E)]; rewrite E; cbn.
  - constructor.
  - repeat constructor.
Qed.

(** C7, as the code has it.  The dispatcher reads the first output item
    only and never its name: under any other name it logs the same events
    and ends the same way, the only function it ever calls is
    [get_weather], and the items after the first change nothing. *)
Theorem dispatch_ignores_name
  (w : World) (a cid name name' id status : string) (rest : list output_item) :
  let r := {| output := ResponseFunctionToolCall a cid name id status :: rest |} in
  let r' := {| output := ResponseFunctionToolCall a cid name' id status :: rest |} in
  trace (dispatch w r') = trace (dispatch w r) /\
  on_ending snd (ending (dispatch w r')) = on_ending snd (ending (dispatch w r)) /\
  Forall (fun c => fst c = "get_weather") (calls (trace (dispatch w r))) /\
  dispatch w {| output := [ResponseFunctionToolCall a cid name id status] |}
    = dispatch w r.
Proof.
  intros r r'. subst r r'.
  split; [|split; [|split]].
  - rewrite !dispatch_unfold. cbn [first_item output get_arguments].
    destruct (json_loads w a) as [args|]; [|reflexivity].
    destruct (subscript args "latitude") as [la|]; [|reflexivity].
    destruct (subscript args "longitude") as [lo|]; reflexivity.
  - rewrite !dispatch_unfold. cbn [first_item output get_arguments].
    destruct (json_loads w a) as [args|]; [|reflexivity].
    destruct (subscript args "latitude") as [la|]; [|reflexivity].
    destruct (subscript args "longitude") as [lo|]; [|reflexivity].
    cbn [ending snd].
    destruct (ending (get_weather w la lo)); reflexivity.
  - apply dispatch_calls.
  - rewrite !dispatch_unfold. reflexivity.
Qed.

(** C7 fails as stated: the model names [get_time], which the notebook
    does not define; [get_weather] is called all the same and the run
    completes. *)
Lemma misnamed_call_runs_get_weather :
  responses_create misnamed_world "gpt-4o" input_messages tools
    = Some {| output := [misnamed_call] |} /\
  get_name misnamed_call = Returned "get_time" /\
  existsb (String.eqb "get_time") local_functions = false /\
  calls (trace (run misnamed_world))
    = [("get_weather", [PyFloat tokyo_latitude; PyFloat tokyo_longitude])] /\
  ending (run misnamed_world)
    = Returned (input_messages ++
                [Item misnamed_call;
                 Dict [("type", PyStr "function_call_output");
                       ("call_id", PyStr "call_2");
                       ("output", PyStr "20.5")]])%list.
Proof. repeat split; vm_compute; reflexivity. Qed.

Lemma string_app_assoc (a b c : string) : (a ++ b) ++ c = a ++ (b ++ c).
Proof. induction a as [|x a IH]; cbn; [reflexivity|]. now rewrite IH. Qed.

Lemma firstn_app_exact {A} (l t : list A) : firstn (List.length l) (l ++ t) = l.
Proof.
  rewrite firstn_app, Nat.sub_diag, firstn_all. cbn. apply app_nil_r.
Qed.

(** C9. Every request of a run starts with the list the run began with,
    element for element; so does the list the last cell leaves, which is
    two items longer; and in the notebook's own run the first element of
    every request is the user message. *)
Theorem history_is_append_only (w : World) (msgs : list input_item) :
  Forall (fun input => firstn (List.length msgs) input = msgs)
         (inputs_sent (trace (round_trip w msgs))) /\
  match ending (round_trip w msgs) with
  | Returned msgs' =>
      firstn (List.length msgs) msgs' = msgs /\
      List.length msgs' = (List.length msgs + 2)%nat
  | Raised _ => True
  end /\
  Forall (fun input => nth_error input 0 = nth_error input_messages 0)
         (inputs_sent (trace (run w))).
Proof.
  split; [|split].
  - destruct (round_trip_inputs_sent w msgs) as [E|(r & tc & cid & result & _ & _ & _ & E)];
      rewrite E; repeat constructor.
    + apply firstn_all.
    + apply firstn_all.
    + apply firstn_app_exact.
  - rewrite round_trip_unfold.
    destruct (responses_create w _ _ _) as [r|]; [|exact I].
    destruct (ending (dispatch w r)) as [[tc result]|e] eqn:D; [|exact I].
    destruct (dispatch_returns w r tc result D) as [_ F].
    destruct (function_call_has_call_id tc F) as [cid C].
    rewrite (followup_unfold w msgs tc cid result C). cbn zeta.
    destruct (responses_create w "gpt-4o" (msgs ++ _) tools); [|exact I].
    cbn [ending snd]. split; [apply firstn_app_exact|].
    rewrite length_app. reflexivity.
  - unfold run.
    destruct (round_trip_inputs_sent w input_messages)
      as [E|(r & tc & cid & result & _ & _ & _ & E)];
      rewrite E; repeat constructor.
Qed.

Lemma body_full_decodes :
  exists data current,
    response_json full_body_world body_full = Returned data /\
    subscript data "current" = Returned current /\
    subscript current "temperature_2m" = Returned (PyFloat float_20_5) /\
    subscript current "wind_speed_10m"
      = Returned (PyFloat (Float64.of_decimal false 32 (-1))) /\
    (exists hourly, subscript data "hourly" = Returned (PyDict hourly)).
Proof.
  eexists. eexists. split; [vm_compute; reflexivity|].
  split; [vm_compute; reflexivity|].
  split; [vm_compute; reflexivity|].
  split; [vm_compute; reflexivity|].
  eexists. vm_compute. reflexivity.
Qed.

(** C10. Whatever the body holds, [get_weather] returns the value found
    under [current] and then [temperature_2m], after one call event and
    one fetch; the URL fetched does ask for the wind speed and the hourly
    series as well. *)
Theorem get_weather_returns_current_temperature
  (w : World) (latitude longitude : pyval) (body : string)
  (data current v : pyval) :
  requests_get w (weather_url w latitude longitude) = Some body ->
  response_json w body = Returned data ->
  subscript data "current" = Returned current ->
  subscript current "temperature_2m" = Returned v ->
  get_weather w latitude longitude =
    ([Call "get_weather" [latitude; longitude];
      Get (weather_url w latitude longitude)], Returned v) /\
  exists base,
    weather_url w latitude longitude =
    base ++ "&current=temperature_2m,wind_speed_10m&hourly=temperature_2m,relative_humidity_2m,wind_speed_10m".
Proof.
  intros G J C T. split.
  - rewrite (surjective_pairing (get_weather w latitude longitude)).
    change (fst ?m) with (trace m). change (snd ?m) with (ending m).
    rewrite get_weather_trace, get_weather_result, G, J, C, T. reflexivity.
  - unfold weather_url.
    exists ("https://api.open-meteo.com/v1/forecast?latitude=" ++ py_str w latitude
            ++ "&longitude=" ++ py_str w longitude).
    rewrite !string_app_assoc. reflexivity.
Qed.

Lemma get_weather_returns_current_temperature_witness :
  get_weather full_body_world (PyFloat tokyo_latitude) (PyFloat tokyo_longitude) =
    ([Call "get_weather" [PyFloat tokyo_latitude; PyFloat tokyo_longitude];
      Get (weather_url full_body_world (PyFloat tokyo_latitude) (PyFloat tokyo_longitude))],
     Returned (PyFloat float_20_5)) /\
  exists base,
    weather_url full_body_world (PyFloat tokyo_latitude) (PyFloat tokyo_longitude) =
    base ++ "&current=temperature_2m,wind_speed_10m&hourly=temperature_2m,relative_humidity_2m,wind_speed_10m".
Proof.
  eapply (get_weather_returns_current_temperature full_body_world
            (PyFloat tokyo_latitude) (PyFloat tokyo_longitude) body_full).
  - reflexivity.
  - vm_compute. reflexivity.
  - vm_compute. reflexivity.
  - vm_compute. reflexivity.
Defined.

(** ** What each step can raise *)

Lemma first_item_raises (r : Response) (e : exn) :
  first_item r = Raised e -> e = IndexError.
Proof. unfold first_item. destruct (output r); intros H; now inversion H. Qed.

Lemma get_arguments_raises (it : output_item) (e : exn) :
  get_arguments it = Raised e -> e = AttributeError.
Proof. destruct it; intros H; now inversion H. Qed.

(** The decoder fails in two ways only: the text is malformed, or the
    world's interpreter gives up on a text with more than two opening
    brackets. *)
Lemma decode_within_raises (gives_up : string -> bool) (s : string) (e : exn) :
  decode_within gives_up s = Raised e ->
  (e = JSONDecodeError /\ Json.decode s = Raised JSONDecodeError) \/
  (e = RecursionError /\ gives_up s = true /\
   Nat.ltb 2 (Json.opening_brackets s) = true).
Proof.
  unfold decode_within.
  destruct (Nat.ltb 2 (Json.opening_brackets s)) eqn:B; cbn [andb].
  - destruct (gives_up s) eqn:G.
    + intros H; inversion H. right. repeat split.
    + destruct (JsonFacts.decode_total s) as [[v J]|J]; rewrite J; intros H;
        inversion H. now left.
  - destruct (JsonFacts.decode_total s) as [[v J]|J]; rewrite J; intros H;
      inversion H. now left.
Qed.

Lemma json_loads_raises (w : World) (s : string) (e : exn) :
  json_loads w s = Raised e -> e = JSONDecodeError \/ e = RecursionError.
Proof.
  intros H. apply decode_within_raises in H as [[H _]|[H _]]; tauto.
Qed.

Lemma response_json_raises (w : World) (s : string) (e : exn) :
  response_json w s = Raised e -> e = JSONDecodeError \/ e = RecursionError.
Proof.
  intros H. apply decode_within_raises in H as [[H _]|[H _]]; tauto.
Qed.

(** Where the interpreter gives up on the arguments the run ends in
    [RecursionError], before any local call. *)
Lemma recursion_limit_stops_dispatch
  (w : World) (msgs : list input_item) (r : Response)
  (tool_call : output_item) (a : string) :
  responses_create w "gpt-4o" msgs tools = Some r ->
  first_item r = Returned tool_call ->
  get_arguments tool_call = Returned a ->
  Nat.ltb 2 (Json.opening_brackets a) = true ->
  loads_gives_up w a = true ->
  round_trip w msgs = ([Create "gpt-4o" msgs tools], Raised RecursionError).
Proof.
  intros R F A B G.
  rewrite round_trip_unfold, R, dispatch_unfold, F, A.
  unfold json_loads, decode_within. rewrite B, G. reflexivity.
Qed.

Example cramped_run :
  run cramped_world = ([Create "gpt-4o" input_messages tools], Raised RecursionError).
Proof. vm_compute. reflexivity. Qed.

Lemma subscript_raises (v : pyval) (k : string) (e : exn) :
  subscript v k = Raised e -> e = KeyError \/ e = TypeError.
Proof.
  destruct v; cbn [subscript]; try (intros H; inversion H; now right).
  destruct (dict_get entries k); intros H; inversion H. now left.
Qed.

Lemma get_weather_raises (w : World) (latitude longitude : pyval) (e : exn) :
  ending (get_weather w latitude longitude) = Raised e ->
  In e [RequestException; JSONDecodeError; RecursionError; TypeError; KeyError].
Proof.
  rewrite get_weather_result.
  destruct (requests_get w _) as [body|]; [|intros H; inversion H; cbn; tauto].
  destruct (response_json w body) as [data|e'] eqn:J.
  2:{ intros H; inversion H; subst.
      apply response_json_raises in J as [J|J]; subst; cbn; tauto. }
  destruct (subscript data "current") as [cur|e'] eqn:C.
  2:{ intros H; inversion H; subst.
      apply subscript_raises in C as [C|C]; subst; cbn; tauto. }
  intros T. apply subscript_raises in T as [T|T]; subst; cbn; tauto.
Qed.

(** A dispatcher that returns has made its call and its fetch. *)
Lemma dispatch_returns_trace (w : World) (r : Response)
      (tool_call : output_item) (result : pyval) :
  ending (dispatch w r) = Returned (tool_call, result) ->
  exists latitude longitude,
    trace (dispatch w r) =
    [Call "get_weather" [latitude; longitude];
     Get (weather_url w latitude longitude)] /\
    ending (get_weather w latitude longitude) = Returned result.
Proof.
  rewrite dispatch_unfold.
  destruct (first_item r) as [tc|]; [|discriminate].
  destruct (get_arguments tc) as [a|]; [|discriminate].
  destruct (json_loads w a) as [args|]; [|discriminate].
  destruct (subscript args "latitude") as [la|]; [|discriminate].
  destruct (subscript args "longitude") as [lo|]; [|discriminate].
  cbn [trace ending fst snd].
  change (fst (get_weather w la lo)) with (trace (get_weather w la lo)).
  change (snd (get_weather w la lo)) with (ending (get_weather w la lo)).
  destruct (ending (get_weather w la lo)) as [v|] eqn:G; [|discriminate].
  intros H; inversion H; subst. exists la, lo.
  split; [apply get_weather_trace|exact G].
Qed.

Lemma output_text_of_calls (r : Response) :
  forallb is_function_call (output r) = true -> output_text r = EmptyString.
Proof.
  unfold output_text. destruct r as [l]. cbn [output].
  induction l as [|it l IH]; [reflexivity|].
  cbn [forallb flat_map]. intros H. apply andb_true_iff in H as [H1 H2].
  destruct it; try discriminate. cbn [item_texts app]. now apply IH.
Qed.

Lemma outputs_of_app (l1 l2 : list input_item) :
  outputs_of (l1 ++ l2) = (outputs_of l1 ++ outputs_of l2)%list.
Proof. unfold outputs_of. apply flat_map_app. Qed.

Lemma outputs_of_followup (w : World) (it : output_item) (cid : string) (result : pyval) :
  outputs_of [Item it; function_call_output w cid result] = [cid].
Proof. reflexivity. Qed.


(** ** Integers as text *)

Module IntText.
Import Json.

Lemma uint_chars_string d :
  list_ascii_of_string (NilEmpty.string_of_uint d) = uint_chars d.
Proof. induction d; cbn; congruence. Qed.

Lemma span_digits_uint d :
  span_digits (uint_chars d) = (uint_chars d, []).
Proof.
  induction d; cbn [uint_chars span_digits]; [reflexivity|..];
    (change (is_digit _) with true; cbn iota; rewrite IHd; reflexivity).
Qed.

Lemma fold_uint_acc d : forall acc : positive,
  fold_left digit_step (uint_chars d) (Zpos acc) = Zpos (Pos.of_uint_acc d acc).
Proof.
  induction d; intros acc; cbn [uint_chars fold_left Pos.of_uint_acc];
    [reflexivity|..];
    (match goal with
     | |- fold_left digit_step _ (digit_step _ ?c) = _ =>
         unfold digit_step at 2; change (Z.of_N (N_of_ascii c) - 48)%Z with
           (Z.of_N (N_of_ascii c) - 48)%Z
     end);
    cbn [N_of_ascii N_of_digits]; rewrite <- IHd; f_equal; lia.
Qed.

Lemma digits_value_uint d :
  digits_value (uint_chars d) = Z.of_N (Pos.of_uint d).
Proof.
  unfold digits_value. change (fun a c => _) with digit_step.
  induction d; cbn [uint_chars fold_left Pos.of_uint]; [reflexivity|exact IHd|..];
    (unfold digit_step at 2; cbn [N_of_ascii N_of_digits];
     match goal with
     | |- fold_left digit_step _ ?k = _ =>
         let p := eval vm_compute in (Z.to_pos k) in
         change k with (Zpos p)
     end;
     rewrite fold_uint_acc; reflexivity).
Qed.

(** The digits of a positive number start with 1..9. *)
Lemma to_uint_head p :
  match Pos.to_uint p with
  | Decimal.Nil | Decimal.D0 _ => False
  | _ => True
  end.
Proof.
  pose proof (DecimalPos.Unsigned.to_uint_nonzero p) as NZ.
  pose proof (DecimalPos.Unsigned.to_of (Pos.to_uint p)) as N.
  rewrite DecimalPos.Unsigned.of_to in N. cbn [N.to_uint] in N.
  destruct (Pos.to_uint p) eqn:E; try exact I.
  - now apply (DecimalPos.Unsigned.to_uint_nonnil p).
  - unfold Decimal.unorm in N.
    destruct (Decimal.nzhead (Decimal.D0 u)) eqn:Z;
      try (symmetry in N; now apply (DecimalFacts.nzhead_nonzero (Decimal.D0 u) u); rewrite Z).
    now apply NZ.
Qed.

Lemma not_literal d rest :
  match d with Decimal.Nil => False | _ => True end ->
  let cs := (uint_chars d ++ rest)%list in
  scan_atom cs = match match_number cs with
                 | Some (v, r) => Scanned v r
                 | None => Malformed
                 end /\
  scan_atom ("-"%char :: cs) =
    match match_number ("-"%char :: cs) with
    | Some (v, r) => Scanned v r
    | None => Malformed
    end.
Proof.
  destruct d; intros H; try destruct H; split; reflexivity.
Qed.

Lemma match_number_uint d (neg : bool) :
  match d with Decimal.Nil | Decimal.D0 _ => False | _ => True end ->
  match_number ((if neg then ["-"%char] else []) ++ uint_chars d) =
  Some (PyInt (cond_Zopp neg (Z.of_N (Pos.of_uint d))), []).
Proof.
  intros H. rewrite <- digits_value_uint.
  assert (I : scan_int_part (uint_chars d) = Some (uint_chars d, [])).
  { destruct d; try destruct H; cbn [uint_chars scan_int_part];
      (change (Ascii.eqb _ "0") with false; change (is_digit _) with true;
       cbn iota; rewrite span_digits_uint; reflexivity). }
  unfold match_number.
  destruct neg; cbn [app].
  - change (Ascii.eqb "-" "-") with true. cbn iota. rewrite I. reflexivity.
  - assert (M : match uint_chars d with
                | [] => (false, [])
                | c :: r => if Ascii.eqb c "-" then (true, r) else (false, uint_chars d)
                end = (false, uint_chars d)).
    { destruct d; try destruct H; reflexivity. }
    rewrite M, I. reflexivity.
Qed.


Lemma scan_once_number d (neg : bool) (fuel : nat) :
  match d with Decimal.Nil | Decimal.D0 _ => False | _ => True end ->
  scan_once (S fuel) ((if neg then ["-"%char] else []) ++ uint_chars d) =
  Scanned (PyInt (cond_Zopp neg (Z.of_N (Pos.of_uint d)))) [].
Proof.
  intros H. pose proof (match_number_uint d neg H) as M.
  assert (NN : match d with Decimal.Nil => False | _ => True end).
  { destruct d; try destruct H; exact I. }
  destruct (not_literal d [] NN) as [A B].
  cbn zeta in A, B. rewrite List.app_nil_r in A, B.
  destruct neg; cbn [app] in *.
  - cbn [scan_once]. change (Ascii.eqb "-" "034") with false.
    change (Ascii.eqb "-" "{") with false. change (Ascii.eqb "-" "[") with false.
    cbn iota. rewrite B, M. reflexivity.
  - destruct d; try destruct H; cbn [uint_chars scan_once] in *;
      (match goal with
       | |- context [Ascii.eqb ?c "034"] =>
           change (Ascii.eqb c "034") with false;
           change (Ascii.eqb c "{") with false;
           change (Ascii.eqb c "[") with false
       end; cbn iota; rewrite A, M; reflexivity).
Qed.

Lemma skip_ws_number d (neg : bool) :
  match d with Decimal.Nil | Decimal.D0 _ => False | _ => True end ->
  skip_ws ((if neg then ["-"%char] else []) ++ uint_chars d) =
  ((if neg then ["-"%char] else []) ++ uint_chars d)%list.
Proof. destruct neg; [reflexivity|]. destruct d; intros H; try destruct H; reflexivity. Qed.

Lemma decode_number d (neg : bool) (s : string) :
  match d with Decimal.Nil | Decimal.D0 _ => False | _ => True end ->
  list_ascii_of_string s = ((if neg then ["-"%char] else []) ++ uint_chars d)%list ->
  decode s = Returned (PyInt (cond_Zopp neg (Z.of_N (Pos.of_uint d)))).
Proof.
  intros H E. unfold decode. rewrite E. cbn zeta.
  rewrite (skip_ws_number d neg H).
  replace (2 * List.length ((if neg then ["-"%char] else []) ++ uint_chars d) + 2)%nat
    with (S (2 * List.length ((if neg then ["-"%char] else []) ++ uint_chars d) + 1))%nat
    by lia.
  rewrite (scan_once_number d neg _ H). reflexivity.
Qed.

(** The text of an integer is a minus sign, if any, and digits. *)
Lemma string_of_Z_chars (z : Z) :
  exists (neg : bool) d,
    match d with Decimal.Nil => False | _ => True end /\
    list_ascii_of_string (Float64.string_of_Z z)
    = ((if neg then ["-"%char] else []) ++ uint_chars d)%list /\
    (z = 0%Z \/
     (match d with Decimal.Nil | Decimal.D0 _ => False | _ => True end /\
      z = cond_Zopp neg (Z.of_N (Pos.of_uint d)))).
Proof.
  unfold Float64.string_of_Z. destruct z as [|p|p].
  - exists false, (Decimal.D0 Decimal.Nil). repeat split. now left.
  - pose proof (to_uint_head p) as H. exists false, (Pos.to_uint p).
    split; [destruct (Pos.to_uint p); try destruct H; exact I|]. split.
    + cbn [Z.to_int NilZero.string_of_int NilZero.string_of_uint app].
      destruct (Pos.to_uint p); try destruct H; apply uint_chars_string.
    + right. split; [exact H|]. rewrite DecimalPos.Unsigned.of_to. reflexivity.
  - pose proof (to_uint_head p) as H. exists true, (Pos.to_uint p).
    split; [destruct (Pos.to_uint p); try destruct H; exact I|]. split.
    + cbn [Z.to_int NilZero.string_of_int NilZero.string_of_uint app
             list_ascii_of_string].
      f_equal. destruct (Pos.to_uint p); try destruct H; apply uint_chars_string.
    + right. split; [exact H|]. rewrite DecimalPos.Unsigned.of_to. reflexivity.
Qed.

(** The text of [z] stands for [z]. *)
Lemma decode_string_of_Z (z : Z) :
  decode (Float64.string_of_Z z) = Returned (PyInt z).
Proof.
  destruct (string_of_Z_chars z) as (neg & d & _ & E & [Z0|[H V]]).
  - subst z. vm_compute. reflexivity.
  - rewrite (decode_number d neg _ H E), V. reflexivity.
Qed.

(** It has no bracket in it. *)
Lemma uint_chars_no_bracket d : filter is_opening (uint_chars d) = [].
Proof. induction d; cbn [uint_chars filter]; [reflexivity|..]; exact IHd. Qed.

Lemma string_of_Z_no_bracket (z : Z) :
  opening_brackets (Float64.string_of_Z z) = 0%nat.
Proof.
  unfold opening_brackets.
  destruct (string_of_Z_chars z) as (neg & d & _ & E & _). rewrite E.
  rewrite filter_app, uint_chars_no_bracket. destruct neg; reflexivity.
Qed.

(** So [json.loads(str(z))] is [z], whatever room the interpreter has. *)
Lemma decode_within_string_of_Z (gives_up : string -> bool) (z : Z) :
  decode_within gives_up (Float64.string_of_Z z) = Returned (PyInt z).
Proof.
  unfold decode_within. rewrite string_of_Z_no_bracket. cbn [Nat.ltb Nat.leb andb].
  apply decode_string_of_Z.
Qed.

End IntText.


(** ** Beyond the claims *)

(** X1. The stages of a run.  Its events are, in this order, the first
    request, the local call with its fetch, the second request and the
    print, cut short where something raises; it returns exactly when it
    has printed, and what it prints is the text of the second answer.
    Before the local call the exception is one of [APIError],
    [IndexError], [AttributeError], [JSONDecodeError], [RecursionError],
    [TypeError] and [KeyError]; after the fetch one of
    [RequestException], [JSONDecodeError], [RecursionError], [TypeError]
    and [KeyError]; after the second request it is [APIError]. *)
Theorem run_stages (w : World) (msgs : list input_item) :
  let first := Create "gpt-4o" msgs tools in
  (exists e,
     round_trip w msgs = ([first], Raised e) /\
     In e [APIError; IndexError; AttributeError; JSONDecodeError;
           RecursionError; TypeError; KeyError]) \/
  (exists latitude longitude e,
     round_trip w msgs =
     ([first; Call "get_weather" [latitude; longitude];
       Get (weather_url w latitude longitude)], Raised e) /\
     In e [RequestException; JSONDecodeError; RecursionError;
           TypeError; KeyError]) \/
  (exists latitude longitude msgs',
     responses_create w "gpt-4o" msgs' tools = None /\
     round_trip w msgs =
     ([first; Call "get_weather" [latitude; longitude];
       Get (weather_url w latitude longitude);
       Create "gpt-4o" msgs' tools], Raised APIError)) \/
  (exists latitude longitude msgs' response_2,
     responses_create w "gpt-4o" msgs' tools = Some response_2 /\
     round_trip w msgs =
     ([first; Call "get_weather" [latitude; longitude];
       Get (weather_url w latitude longitude);
       Create "gpt-4o" msgs' tools; Stdout (output_text response_2)],
      Returned msgs')).
Proof.
  intros first. subst first. rewrite round_trip_unfold.
  destruct (responses_create w "gpt-4o" msgs tools) as [r|];
    [|left; eexists; split; [reflexivity|cbn; tauto]].
  destruct (ending (dispatch w r)) as [[tc result]|e] eqn:D.
  - destruct (dispatch_returns_trace w r tc result D) as (la & lo & T & _).
    destruct (dispatch_returns w r tc result D) as [_ F].
    destruct (function_call_has_call_id tc F) as [cid C].
    rewrite T, (followup_unfold w msgs tc cid result C). cbn zeta.
    destruct (responses_create w "gpt-4o" (msgs ++ _) tools) as [r2|] eqn:R2.
    + right; right; right. exists la, lo. eexists. exists r2.
      split; [exact R2|]. reflexivity.
    + right; right; left. exists la, lo. eexists.
      split; [exact R2|]. reflexivity.
  - rewrite dispatch_unfold in *.
    destruct (first_item r) as [tc|e'] eqn:F.
    2:{ inversion D; subst. apply first_item_raises in F. subst.
        left. eexists. split; [reflexivity|cbn; tauto]. }
    destruct (get_arguments tc) as [a|e'] eqn:A.
    2:{ inversion D; subst. apply get_arguments_raises in A. subst.
        left. eexists. split; [reflexivity|cbn; tauto]. }
    destruct (json_loads w a) as [args|e'] eqn:J.
    2:{ inversion D; subst. left. eexists. split; [reflexivity|].
        apply json_loads_raises in J as [J|J]; subst; cbn; tauto. }
    destruct (subscript args "latitude") as [la|e'] eqn:La.
    2:{ inversion D; subst. left. eexists. split; [reflexivity|].
        apply subscript_raises in La as [La|La]; subst; cbn; tauto. }
    destruct (subscript args "longitude") as [lo|e'] eqn:Lo.
    2:{ inversion D; subst. left. eexists. split; [reflexivity|].
        apply subscript_raises in Lo as [Lo|Lo]; subst; cbn; tauto. }
    cbn [trace ending fst snd] in *.
    change (fst (get_weather w la lo)) with (trace (get_weather w la lo)) in *.
    change (snd (get_weather w la lo)) with (ending (get_weather w la lo)) in *.
    destruct (ending (get_weather w la lo)) as [v|e'] eqn:G; [discriminate|].
    inversion D; subst. rewrite get_weather_trace.
    right; left. exists la, lo, e. split; [reflexivity|].
    now apply get_weather_raises in G.
Qed.

(** X2. A failure of [get_weather] is the run's failure: whatever it
    raises ends the run right after the fetch, and the model is not asked
    a second time. *)
Theorem weather_failure_stops_run
  (w : World) (msgs : list input_item) (r : Response)
  (f : string) (latitude longitude : pyval) (e : exn) :
  responses_create w "gpt-4o" msgs tools = Some r ->
  In (Call f [latitude; longitude]) (trace (dispatch w r)) ->
  ending (get_weather w latitude longitude) = Raised e ->
  round_trip w msgs =
  ([Create "gpt-4o" msgs tools; Call "get_weather" [latitude; longitude];
    Get (weather_url w latitude longitude)], Raised e).
Proof.
  intros R I G. rewrite round_trip_unfold, R.
  rewrite dispatch_unfold in *.
  destruct (first_item r) as [tc|]; [|destruct I].
  destruct (get_arguments tc) as [a|]; [|destruct I].
  destruct (json_loads w a) as [args|]; [|destruct I].
  destruct (subscript args "latitude") as [la|]; [|destruct I].
  destruct (subscript args "longitude") as [lo|]; [|destruct I].
  cbn [trace ending fst snd] in *.
  change (fst (get_weather w la lo)) with (trace (get_weather w la lo)) in *.
  change (snd (get_weather w la lo)) with (ending (get_weather w la lo)) in *.
  rewrite get_weather_trace in *.
  destruct I as [I|[I|[]]]; [|discriminate].
  inversion I; subst. rewrite G. reflexivity.
Qed.

Lemma weather_failure_stops_run_witness :
  round_trip unreachable_world input_messages =
  ([Create "gpt-4o" input_messages tools;
    Call "get_weather" [PyFloat tokyo_latitude; PyFloat tokyo_longitude];
    Get (weather_url unreachable_world (PyFloat tokyo_latitude) (PyFloat tokyo_longitude))],
   Raised RequestException).
Proof.
  apply (weather_failure_stops_run unreachable_world input_messages
           {| output := [recorded_call] |} "get_weather").
  - reflexivity.
  - vm_compute. left. reflexivity.
  - vm_compute. reflexivity.
Defined.

(** X3. [get_weather] returns a value exactly when the endpoint answers,
    the body decodes, and the decoded value has [v] under [current] and
    then [temperature_2m]. *)
Theorem get_weather_returns_iff
  (w : World) (latitude longitude v : pyval) :
  ending (get_weather w latitude longitude) = Returned v <->
  exists body data current,
    requests_get w (weather_url w latitude longitude) = Some body /\
    response_json w body = Returned data /\
    subscript data "current" = Returned current /\
    subscript current "temperature_2m" = Returned v.
Proof.
  rewrite get_weather_result. split.
  - destruct (requests_get w _) as [body|]; [|discriminate].
    destruct (response_json w body) as [data|] eqn:J; [|discriminate].
    destruct (subscript data "current") as [cur|] eqn:C; [|discriminate].
    intros T. exists body, data, cur. repeat split; assumption.
  - intros (body & data & cur & G & J & C & T). rewrite G, J, C. exact T.
Qed.

(** X4. Why [get_weather] fails.  [RequestException]: the endpoint did not
    answer.  [JSONDecodeError]: the body is no JSON.  [RecursionError]:
    the interpreter gave up on a body with more than two opening
    brackets.  [TypeError]: the body, or its [current] entry, is no dict.
    [KeyError]: [current] or [temperature_2m] is missing.  The status of
    the answer is never looked at, so an error body fails on its missing
    key. *)
Theorem get_weather_failure_causes
  (w : World) (latitude longitude : pyval) (e : exn) :
  ending (get_weather w latitude longitude) = Raised e ->
  match requests_get w (weather_url w latitude longitude) with
  | None => e = RequestException
  | Some body =>
      match response_json w body with
      | Raised e' =>
          e = e' /\
          ((e = JSONDecodeError /\ Json.decode body = Raised JSONDecodeError) \/
           (e = RecursionError /\ json_gives_up w body = true /\
            Nat.ltb 2 (Json.opening_brackets body) = true))
      | Returned (PyDict d) =>
          match dict_get d "current" with
          | None => e = KeyError
          | Some (PyDict c) => dict_get c "temperature_2m" = None /\ e = KeyError
          | Some _ => e = TypeError
          end
      | Returned _ => e = TypeError
      end
  end.
Proof.
  rewrite get_weather_result.
  destruct (requests_get w _) as [body|]; [|intros H; now inversion H].
  destruct (response_json w body) as [data|e'] eqn:J.
  2:{ intros H; inversion H; subst. split; [reflexivity|].
      now apply decode_within_raises in J. }
  destruct data as [| | | | |l|d]; cbn [subscript];
    try (intros H; now inversion H).
  destruct (dict_get d "current") as [cur|]; [|intros H; now inversion H].
  destruct cur as [| | | | |l|c]; cbn [subscript];
    try (intros H; now inversion H).
  destruct (dict_get c "temperature_2m"); [discriminate|].
  intros H; inversion H. split; reflexivity.
Qed.

Lemma get_weather_failure_causes_witness :
  match requests_get error_body_world
          (weather_url error_body_world (PyFloat tokyo_latitude) (PyFloat tokyo_longitude)) with
  | None => KeyError = RequestException
  | Some body =>
      match response_json error_body_world body with
      | Raised e' =>
          KeyError = e' /\
          ((KeyError = JSONDecodeError /\ Json.decode body = Raised JSONDecodeError) \/
           (KeyError = RecursionError /\ json_gives_up error_body_world body = true /\
            Nat.ltb 2 (Json.opening_brackets body) = true))
      | Returned (PyDict d) =>
          match dict_get d "current" with
          | None => KeyError = KeyError
          | Some (PyDict c) => dict_get c "temperature_2m" = None /\ KeyError = KeyError
          | Some _ => KeyError = TypeError
          end
      | Returned _ => KeyError = TypeError
      end
  end.
Proof.
  apply (get_weather_failure_causes error_body_world
           (PyFloat tokyo_latitude) (PyFloat tokyo_longitude) KeyError).
  vm_compute. reflexivity.
Defined.

(** X5. Arguments that decode but are no dict, or a dict without
    [latitude] or without [longitude], stop the dispatcher before any
    local call: [TypeError] in the first case, [KeyError] in the second.
    The run ends after its one request. *)
Theorem unusable_arguments_raise_first
  (w : World) (msgs : list input_item) (r : Response)
  (tool_call : output_item) (a : string) (args : pyval) :
  responses_create w "gpt-4o" msgs tools = Some r ->
  first_item r = Returned tool_call ->
  get_arguments tool_call = Returned a ->
  json_loads w a = Returned args ->
  match args with
  | PyDict d => has_key d "latitude" && has_key d "longitude" = false
  | _ => True
  end ->
  let e := match args with PyDict _ => KeyError | _ => TypeError end in
  dispatch w r = ([], Raised e) /\
  round_trip w msgs = ([Create "gpt-4o" msgs tools], Raised e).
Proof.
  intros R F A J U e.
  assert (D : dispatch w r = ([], Raised e)).
  { rewrite dispatch_unfold, F, A, J. subst e.
    destruct args as [| | | | |l|d]; try reflexivity.
    unfold has_key in U. cbn [subscript].
    destruct (dict_get d "latitude"); [|reflexivity].
    destruct (dict_get d "longitude"); [discriminate|reflexivity]. }
  split; [exact D|]. rewrite round_trip_unfold, R, D. reflexivity.
Qed.

Lemma unusable_arguments_raise_first_witness :
  dispatch incomplete_world {| output := [incomplete_call] |} = ([], Raised KeyError) /\
  round_trip incomplete_world input_messages =
  ([Create "gpt-4o" input_messages tools], Raised KeyError).
Proof.
  apply (unusable_arguments_raise_first incomplete_world input_messages
           {| output := [incomplete_call] |} incomplete_call incomplete_arguments
           (PyDict [("latitude", PyFloat (Float64.of_decimal false 3568 (-2)))])).
  - reflexivity.
  - reflexivity.
  - reflexivity.
  - vm_compute. reflexivity.
  - vm_compute. reflexivity.
Defined.

(** X6. The declared schema and the dispatcher agree.  The one schema in
    [tools] names a function the notebook defines, and arguments that
    hold every key the schema requires reach [get_weather], on the
    entries found under [latitude] and [longitude]: nothing is checked
    about the types of the two values or about further keys. *)
Theorem required_keys_reach_get_weather
  (w : World) (r : Response) (tool_call : output_item) (a : string)
  (d : list (string * pyval)) (schema : pyval) :
  In schema declared_tools ->
  first_item r = Returned tool_call ->
  get_arguments tool_call = Returned a ->
  json_loads w a = Returned (PyDict d) ->
  forallb (has_key d) (schema_required schema) = true ->
  exists n latitude longitude,
    schema_name schema = Some n /\ In n local_functions /\
    dict_get d "latitude" = Some latitude /\
    dict_get d "longitude" = Some longitude /\
    dispatch w r =
    (trace (get_weather w latitude longitude),
     on_ending (pair tool_call) (ending (get_weather w latitude longitude))).
Proof.
  intros S F A J K.
  destruct S as [S|[]]. subst schema.
  cbn in K. unfold has_key in K.
  destruct (dict_get d "latitude") as [la|] eqn:La; [|discriminate].
  destruct (dict_get d "longitude") as [lo|] eqn:Lo; [|discriminate].
  exists "get_weather", la, lo.
  split; [reflexivity|]. split; [left; reflexivity|].
  split; [reflexivity|]. split; [reflexivity|].
  rewrite dispatch_unfold, F, A, J. cbn [subscript]. rewrite La, Lo.
  destruct (ending (get_weather w la lo)); reflexivity.
Qed.

Lemma required_keys_reach_get_weather_witness :
  exists n latitude longitude,
    schema_name (hd PyNone declared_tools) = Some n /\ In n local_functions /\
    dict_get [("units", PyStr "celsius"); ("latitude", PyStr "35.68");
              ("longitude", PyInt 139)] "latitude" = Some latitude /\
    dict_get [("units", PyStr "celsius"); ("latitude", PyStr "35.68");
              ("longitude", PyInt 139)] "longitude" = Some longitude /\
    dispatch loose_world {| output := [loose_call] |} =
    (trace (get_weather loose_world latitude longitude),
     on_ending (pair loose_call) (ending (get_weather loose_world latitude longitude))).
Proof.
  apply (required_keys_reach_get_weather loose_world {| output := [loose_call] |}
           loose_call loose_arguments).
  - left. reflexivity.
  - reflexivity.
  - reflexivity.
  - vm_compute. reflexivity.
  - vm_compute. reflexivity.
Defined.

(** X7. There is no second round.  When the answer to the follow-up
    request holds function calls only, the run still ends there: it
    prints the empty text and returns, having made one local call. *)
Theorem second_function_call_is_not_run
  (w : World) (msgs : list input_item) (r r2 : Response)
  (tool_call : output_item) (cid : string) (result : pyval) :
  responses_create w "gpt-4o" msgs tools = Some r ->
  ending (dispatch w r) = Returned (tool_call, result) ->
  get_call_id tool_call = Returned cid ->
  let msgs' := (msgs ++ [Item tool_call; function_call_output w cid result])%list in
  responses_create w "gpt-4o" msgs' tools = Some r2 ->
  forallb is_function_call (output r2) = true ->
  exists latitude longitude,
    round_trip w msgs =
    ([Create "gpt-4o" msgs tools; Call "get_weather" [latitude; longitude];
      Get (weather_url w latitude longitude);
      Create "gpt-4o" msgs' tools; Stdout EmptyString],
     Returned msgs').
Proof.
  intros R D C msgs' R2 N.
  destruct (dispatch_returns_trace w r tool_call result D) as (la & lo & T & _).
  exists la, lo.
  rewrite round_trip_unfold, R, D, T,
    (followup_unfold w msgs tool_call cid result C).
  cbn zeta. fold msgs'. rewrite R2, (output_text_of_calls r2 N). reflexivity.
Qed.

Lemma second_function_call_is_not_run_witness :
  exists latitude longitude,
    round_trip insistent_world input_messages =
    ([Create "gpt-4o" input_messages tools;
      Call "get_weather" [latitude; longitude];
      Get (weather_url insistent_world latitude longitude);
      Create "gpt-4o"
        (input_messages ++
         [Item recorded_call;
          function_call_output insistent_world "call_KqM2XlFWwa9VKR6A35JbXK1m"
            (PyFloat float_20_5)])%list tools;
      Stdout EmptyString],
     Returned (input_messages ++
         [Item recorded_call;
          function_call_output insistent_world "call_KqM2XlFWwa9VKR6A35JbXK1m"
            (PyFloat float_20_5)])%list).
Proof.
  apply (second_function_call_is_not_run insistent_world input_messages
           {| output := [recorded_call] |} {| output := [recorded_call] |}
           recorded_call "call_KqM2XlFWwa9VKR6A35JbXK1m" (PyFloat float_20_5)).
  - reflexivity.
  - vm_compute. reflexivity.
  - reflexivity.
  - reflexivity.
  - reflexivity.
Defined.

(** X8. Of several function calls in one answer only the first is run and
    answered: the follow-up request adds one output, the one for the
    first call, so a later call with an id of its own stays without an
    output in everything the run sends. *)
Theorem later_calls_stay_unanswered
  (w : World) (msgs : list input_item) (r : Response)
  (tool_call later : output_item) (rest : list output_item)
  (result : pyval) (cid cid' : string) :
  responses_create w "gpt-4o" msgs tools = Some r ->
  output r = tool_call :: rest ->
  ending (dispatch w r) = Returned (tool_call, result) ->
  get_call_id tool_call = Returned cid ->
  In later rest ->
  get_call_id later = Returned cid' ->
  cid' <> cid ->
  ~ In cid' (outputs_of msgs) ->
  Forall (fun input => ~ In cid' (outputs_of input))
         (inputs_sent (trace (round_trip w msgs))) /\
  List.length (calls (trace (round_trip w msgs))) = 1%nat /\
  exists msgs', inputs_sent (trace (round_trip w msgs)) = [msgs; msgs'] /\
                outputs_of msgs' = (outputs_of msgs ++ [cid])%list.
Proof.
  intros R O D C L C' N M.
  destruct (dispatch_returns_trace w r tool_call result D) as (la & lo & T & _).
  rewrite round_trip_unfold, R, D, (followup_unfold w msgs tool_call cid result C), T.
  cbn zeta.
  assert (Q : outputs_of (msgs ++ [Item tool_call; function_call_output w cid result])
              = (outputs_of msgs ++ [cid])%list).
  { rewrite outputs_of_app, outputs_of_followup. reflexivity. }
  destruct (responses_create w "gpt-4o" (msgs ++ _) tools) as [r2|];
    cbn [trace fst app inputs_sent calls flat_map].
  - split; [|split; [reflexivity|eexists; split; [reflexivity|exact Q]]].
    repeat constructor; [exact M|]. rewrite Q. intros I.
    apply in_app_or in I as [I|[I|[]]]; [now apply M|]. now apply N.
  - split; [|split; [reflexivity|eexists; split; [reflexivity|exact Q]]].
    repeat constructor; [exact M|]. rewrite Q. intros I.
    apply in_app_or in I as [I|[I|[]]]; [now apply M|]. now apply N.
Qed.

Lemma later_calls_stay_unanswered_witness :
  Forall (fun input => ~ In "call_5" (outputs_of input))
         (inputs_sent (trace (round_trip parallel_world input_messages))) /\
  List.length (calls (trace (round_trip parallel_world input_messages))) = 1%nat /\
  exists msgs',
    inputs_sent (trace (round_trip parallel_world input_messages))
      = [input_messages; msgs'] /\
    outputs_of msgs'
      = (outputs_of input_messages ++ ["call_KqM2XlFWwa9VKR6A35JbXK1m"])%list.
Proof.
  apply (later_calls_stay_unanswered parallel_world input_messages
           {| output := [recorded_call; second_call] |}
           recorded_call second_call [second_call] (PyFloat float_20_5)).
  - reflexivity.
  - reflexivity.
  - vm_compute. reflexivity.
  - reflexivity.
  - left. reflexivity.
  - reflexivity.
  - discriminate.
  - intros [].
Defined.

(** X9. An integer result goes out as text that reads back as the same
    integer: the [output] of the item built from it is a JSON number for
    it. *)
Theorem integer_output_reads_back (w : World) (cid : string) (z : Z) :
  exists text,
    function_call_output w cid (PyInt z) =
      Dict [("type", PyStr "function_call_output");
            ("call_id", PyStr cid);
            ("output", PyStr text)] /\
    json_loads w text = Returned (PyInt z).
Proof.
  exists (Float64.string_of_Z z). split; [reflexivity|].
  apply IntText.decode_within_string_of_Z.
Qed.

Lemma sent_answers_matched_witness :
  Forall (fun input => answers_matched [] input = true)
         (inputs_sent (trace (round_trip recorded_world input_messages))).
Proof.
  apply (sent_answers_matched recorded_world input_messages). reflexivity.
Defined.

Lemma local_call_needs_decoded_arguments_witness :
  exists tool_call a args latitude longitude,
    first_item {| output := [recorded_call] |} = Returned tool_call /\
    get_arguments tool_call = Returned a /\
    json_loads recorded_world a = Returned args /\
    subscript args "latitude" = Returned latitude /\
    subscript args "longitude" = Returned longitude /\
    "get_weather" = "get_weather" /\
    [PyFloat tokyo_latitude; PyFloat tokyo_longitude] = [latitude; longitude].
Proof.
  apply (local_call_needs_decoded_arguments recorded_world
           {| output := [recorded_call] |}).
  vm_compute. left. reflexivity.
Defined.

(** X12. What a completed run returns is the list it sent last, and it
    keeps every output behind its call when the starting list did: the
    returned list can start a further round. *)
Theorem returned_history_is_last_sent
  (w : World) (msgs msgs' : list input_item) :
  ending (round_trip w msgs) = Returned msgs' ->
  answers_matched [] msgs = true ->
  inputs_sent (trace (round_trip w msgs)) = [msgs; msgs'] /\
  answers_matched [] msgs' = true /\
  exists t, trace (round_trip w msgs') = Create "gpt-4o" msgs' tools :: t.
Proof.
  intros E M.
  assert (S : inputs_sent (trace (round_trip w msgs)) = [msgs; msgs']).
  { destruct (round_trip_inputs_sent w msgs)
      as [S|(r & tc & cid & result & R & D & C & S)].
    - exfalso. rewrite round_trip_unfold in E, S.
      destruct (responses_create w "gpt-4o" msgs tools) as [r|]; [|discriminate].
      destruct (ending (dispatch w r)) as [[tc result]|] eqn:D; [|discriminate].
      destruct (dispatch_returns w r tc result D) as [_ F].
      destruct (function_call_has_call_id tc F) as [cid C].
      rewrite (followup_unfold w msgs tc cid result C) in S. cbn zeta in S.
      cbn [trace fst] in S.
      change (Create "gpt-4o" msgs tools :: ?t)
        with ([Create "gpt-4o" msgs tools] ++ t)%list in S.
      rewrite !inputs_sent_app, dispatch_sends_nothing in S.
      destruct (responses_create w "gpt-4o" (msgs ++ _) tools); discriminate.
    - rewrite S. rewrite round_trip_unfold, R, D,
        (followup_unfold w msgs tc cid result C) in E. cbn zeta in E.
      destruct (responses_create w "gpt-4o" (msgs ++ _) tools); [|discriminate].
      cbn [ending snd] in E. inversion E. reflexivity. }
  split; [exact S|]. split.
  - pose proof (sent_answers_matched w msgs M) as A. rewrite S in A.
    inversion A as [|? ? _ A']. inversion A'. assumption.
  - rewrite round_trip_unfold.
    destruct (responses_create w "gpt-4o" msgs' tools) as [r|]; [|eexists; reflexivity].
    destruct (ending (dispatch w r)) as [[tc result]|]; eexists; reflexivity.
Qed.

Lemma returned_history_is_last_sent_witness :
  inputs_sent (trace (round_trip recorded_world input_messages)) =
    [input_messages;
     (input_messages ++
      [Item recorded_call;
       function_call_output recorded_world "call_KqM2XlFWwa9VKR6A35JbXK1m"
         (PyFloat float_20_5)])%list] /\
  answers_matched []
     (input_messages ++
      [Item recorded_call;
       function_call_output recorded_world "call_KqM2XlFWwa9VKR6A35JbXK1m"
         (PyFloat float_20_5)])%list = true /\
  exists t,
    trace (round_trip recorded_world
             (input_messages ++
              [Item recorded_call;
               function_call_output recorded_world "call_KqM2XlFWwa9VKR6A35JbXK1m"
                 (PyFloat float_20_5)])%list)
    = Create "gpt-4o"
        (input_messages ++
         [Item recorded_call;
          function_call_output recorded_world "call_KqM2XlFWwa9VKR6A35JbXK1m"
            (PyFloat float_20_5)])%list tools :: t.
Proof.
  apply (returned_history_is_last_sent recorded_world input_messages).
  - vm_compute. reflexivity.
  - reflexivity.
Defined.
